(** * Runtime control core of the 3D portfolio: a shallow embedding

    The development follows four source files:
    - [PerformanceService] (the performance governor, module [Governor]);
    - [ErrorTrackingService.ts] (module [ErrorTracking]);
    - [sceneStore.ts] (module [SceneStore]);
    - [CameraController.tsx] (module [Camera]).

    JavaScript numbers are idealised: the governor and the store compute
    over the rationals [Q] (only [+], [-], [/] and comparisons occur there),
    the camera over the reals [R] (it needs square roots).  Rounding, NaN
    and the infinities of IEEE doubles are outside the model; every
    statement that divides says under which condition the divisor is not
    zero. *)

From Stdlib Require Import ZArith QArith Qminmax List Lia Bool Arith PeanoNat.
From Stdlib Require Import Ascii String.
From Stdlib Require Import Reals Lqa Lra.
Import ListNotations.

(* ------------------------------------------------------------------ *)
(** * Shared vocabulary *)

(** [PerformanceMode] of both PerformanceService and sceneStore.ts. *)
Inductive PerformanceMode : Type := auto | high | medium | low.

Definition mode_eqb (a b : PerformanceMode) : bool :=
  match a, b with
  | auto, auto | high, high | medium, medium | low, low => true
  | _, _ => false
  end.

(** Strict comparison of rationals as a boolean, for [a < b] and [a > b]
    in the source. *)
Definition Qltb (a b : Q) : bool :=
  match Qcompare a b with Lt => true | _ => false end.

(* ------------------------------------------------------------------ *)
(** * The performance governor (class [PerformanceService]) *)

Module Governor.

Open Scope Q_scope.

Record PerformanceMetrics : Type := mkMetrics {
  m_fps : Q;
  m_frameTime : Q;
  m_memoryUsage : option Q;
  m_gpuMemoryUsage : option Q
}.

Record PerformanceSettings : Type := mkSettings {
  s_targetFPS : Q;
  s_antialias : bool;
  s_shadows : bool;
  s_textureQuality : Q;
  s_renderScale : Q
}.

(** The table [performanceSettings]. *)
Definition performanceSettings (mode : PerformanceMode) : PerformanceSettings :=
  match mode with
  | high => mkSettings 60 true true 1.0 1.0
  | medium => mkSettings 45 true false 0.75 0.8
  | low => mkSettings 30 false false 0.5 0.6
  | auto => mkSettings 60 true true 1.0 1.0
  end.

(** A subscriber is a function reference; [indexOf] compares references,
    so a reference is all the service stores. *)
Abbreviation fn_ref := nat.

(** The private fields of the class. *)
Record PerformanceService : Type := mkService {
  frameCount : nat;
  lastTime : Q;
  fpsCalculationStartTime : Q;
  fps : Q;
  frameTime : Q;
  fpsHistory : list Q;
  performanceMode : PerformanceMode;
  targetFPS : Q;
  callbacks : list fn_ref;
  animationFrameId : option nat
}.

Definition set_mode (m : PerformanceMode) (s : PerformanceService) :=
  mkService (frameCount s) (lastTime s) (fpsCalculationStartTime s) (fps s)
    (frameTime s) (fpsHistory s) m (targetFPS s) (callbacks s)
    (animationFrameId s).

Definition set_targetFPS (t : Q) (s : PerformanceService) :=
  mkService (frameCount s) (lastTime s) (fpsCalculationStartTime s) (fps s)
    (frameTime s) (fpsHistory s) (performanceMode s) t (callbacks s)
    (animationFrameId s).

Definition set_history (h : list Q) (s : PerformanceService) :=
  mkService (frameCount s) (lastTime s) (fpsCalculationStartTime s) (fps s)
    (frameTime s) h (performanceMode s) (targetFPS s) (callbacks s)
    (animationFrameId s).

Definition set_callbacks (c : list fn_ref) (s : PerformanceService) :=
  mkService (frameCount s) (lastTime s) (fpsCalculationStartTime s) (fps s)
    (frameTime s) (fpsHistory s) (performanceMode s) (targetFPS s) c
    (animationFrameId s).

Definition set_animationFrameId (i : option nat) (s : PerformanceService) :=
  mkService (frameCount s) (lastTime s) (fpsCalculationStartTime s) (fps s)
    (frameTime s) (fpsHistory s) (performanceMode s) (targetFPS s)
    (callbacks s) i.

(** What the host gives one run of the [monitor] closure:
    [performance.now()], [performance.memory.usedJSHeapSize] when the
    browser has it, and the handle [requestAnimationFrame] returns. *)
Record host : Type := mkHost {
  now : Q;
  usedJSHeapSize : option Q;
  rafHandle : nat
}.

(** [startMonitoring] outside the closure: it requests the first frame. *)
Definition startMonitoring (raf : nat) (s : PerformanceService) :=
  set_animationFrameId (Some raf) s.

(** Field initialisers followed by the constructor body; [t0] and [t1]
    are the two readings of [performance.now()] for [lastTime] and
    [fpsCalculationStartTime]. *)
Definition constructor (t0 t1 : Q) (raf : nat) : PerformanceService :=
  startMonitoring raf (mkService 0 t0 t1 60 16.67 [] auto 60 [] None).

Definition stopMonitoring (s : PerformanceService) : PerformanceService :=
  match animationFrameId s with
  | Some _ => set_animationFrameId None s
  | None => s
  end.

Definition setPerformanceMode (mode : PerformanceMode) (s : PerformanceService) :=
  set_targetFPS (s_targetFPS (performanceSettings mode)) (set_mode mode s).

Definition getPerformanceMode (s : PerformanceService) := performanceMode s.

(** [mode || this.performanceMode]: every mode string is truthy. *)
Definition getPerformanceSettings (mode : option PerformanceMode)
    (s : PerformanceService) : PerformanceSettings :=
  match mode with
  | Some m => performanceSettings m
  | None => performanceSettings (performanceMode s)
  end.

Definition getCurrentFPS (s : PerformanceService) : Q := fps s.

Definition getAverageFPS (s : PerformanceService) : Q :=
  match fpsHistory s with
  | [] => fps s
  | _ =>
      let sum := fold_left Qplus (fpsHistory s) 0 in
      sum / inject_Z (Z.of_nat (List.length (fpsHistory s)))
  end.

(** [Array.prototype.indexOf] on references; [None] is [-1]. *)
Fixpoint indexOf (cb : fn_ref) (l : list fn_ref) : option nat :=
  match l with
  | [] => None
  | x :: r =>
      if Nat.eqb x cb then Some 0%nat
      else match indexOf cb r with
           | Some i => Some (S i)
           | None => None
           end
  end.

(** [splice(index, 1)]. *)
Definition splice1 (index : nat) (l : list fn_ref) : list fn_ref :=
  firstn index l ++ skipn (S index) l.

(** The closure [subscribe] returns; it captures [callback]. *)
Definition unsubscribe (callback : fn_ref) (s : PerformanceService) :=
  match indexOf callback (callbacks s) with
  | Some index => set_callbacks (splice1 index (callbacks s)) s
  | None => s
  end.

(** [subscribe] pushes the reference; the handle it returns is
    [unsubscribe callback]. *)
Definition subscribe (callback : fn_ref) (s : PerformanceService) :=
  set_callbacks (callbacks s ++ [callback]) s.

Definition updateFPSHistory (v : Q) (s : PerformanceService) :=
  let pushed := fpsHistory s ++ [v] in
  if (30 <? List.length pushed)%nat then set_history (tl pushed) s
  else set_history pushed s.

Definition autoAdjustPerformance (s : PerformanceService) : PerformanceService :=
  let averageFPS := getAverageFPS s in
  if Qltb averageFPS 25 && negb (mode_eqb (performanceMode s) low) then
    set_mode low s
  else if Qltb averageFPS 40 && mode_eqb (performanceMode s) high then
    set_mode medium s
  else if Qltb 55 averageFPS && mode_eqb (performanceMode s) low then
    set_mode medium s
  else if Qltb 55 averageFPS && mode_eqb (performanceMode s) medium then
    set_mode high s
  else s.

Definition getMemoryUsage (h : host) : option Q :=
  match usedJSHeapSize h with
  | Some b => Some (b / 1048576)
  | None => None
  end.

Definition getGPUMemoryUsage : option Q := None.

(** The object literal [metrics] that the subscribers receive. *)
Definition snapshot (h : host) (s : PerformanceService) : PerformanceMetrics :=
  mkMetrics (fps s) (frameTime s) (getMemoryUsage h) getGPUMemoryUsage.

(** How a call of a subscriber ends. *)
Inductive completion : Type := Normal | Throw.

Record frame_result : Type := mkFrame {
  after : PerformanceService;
  invoked : list (fn_ref * PerformanceMetrics);
  outcome : completion
}.

Section Monitor.

(** The subscribers' code is not part of the service: [throws cb m] says
    whether the function behind [cb] throws when called with [m].
    Subscribers are observers; they do not call back into the service. *)
Variable throws : fn_ref -> PerformanceMetrics -> bool.

(** [this.callbacks.forEach(callback => callback(metrics))]: the calls
    made, in order, and how the loop ended.  There is no [try] around the
    call, so the first exception leaves [forEach]. *)
Fixpoint forEach (l : list fn_ref) (metrics : PerformanceMetrics)
    : list (fn_ref * PerformanceMetrics) * completion :=
  match l with
  | [] => ([], Normal)
  | cb :: rest =>
      if throws cb metrics then ([(cb, metrics)], Throw)
      else let (calls, c) := forEach rest metrics in
           ((cb, metrics) :: calls, c)
  end.

(** One run of the closure [monitor].  On an exception the statement
    after the [if], [this.animationFrameId = requestAnimationFrame(monitor)],
    is not reached. *)
Definition monitor (h : host) (s : PerformanceService) : frame_result :=
  let currentTime := now h in
  let count := S (frameCount s) in
  if (count mod 60 =? 0)%nat then
    let elapsedTime := currentTime - fpsCalculationStartTime s in
    let s1 :=
      mkService count currentTime currentTime (60 * 1000 / elapsedTime)
        (currentTime - lastTime s) (fpsHistory s) (performanceMode s)
        (targetFPS s) (callbacks s) (animationFrameId s) in
    let s2 := updateFPSHistory (fps s1) s1 in
    let s3 :=
      if mode_eqb (performanceMode s2) auto then autoAdjustPerformance s2
      else s2 in
    let metrics := snapshot h s3 in
    match forEach (callbacks s3) metrics with
    | (calls, Normal) =>
        mkFrame (set_animationFrameId (Some (rafHandle h)) s3) calls Normal
    | (calls, Throw) => mkFrame s3 calls Throw
    end
  else
    mkFrame
      (mkService count currentTime (fpsCalculationStartTime s) (fps s)
         (currentTime - lastTime s) (fpsHistory s) (performanceMode s)
         (targetFPS s) (callbacks s) (Some (rafHandle h)))
      [] Normal.

(** The frame loop: the host runs [monitor] once per frame for as long as
    the closure keeps requesting the next frame. *)
Fixpoint run_frames (hs : list host) (s : PerformanceService)
    : PerformanceService :=
  match hs with
  | [] => s
  | h :: rest =>
      let r := monitor h s in
      match outcome r with
      | Normal => run_frames rest (after r)
      | Throw => after r
      end
  end.

(** What can happen to the service: a frame, or a call of a public
    method.  Executions are over-approximated: a frame may occur at any
    time, also when none is pending. *)
Inductive call : Type :=
  | Frame (h : host)
  | SetPerformanceMode (mode : PerformanceMode)
  | Subscribe (cb : fn_ref)
  | Unsubscribe (cb : fn_ref)
  | StartMonitoring (raf : nat)
  | StopMonitoring.

Definition step (s : PerformanceService) (c : call) : PerformanceService :=
  match c with
  | Frame h => after (monitor h s)
  | SetPerformanceMode mode => setPerformanceMode mode s
  | Subscribe cb => subscribe cb s
  | Unsubscribe cb => unsubscribe cb s
  | StartMonitoring raf => startMonitoring raf s
  | StopMonitoring => stopMonitoring s
  end.

Definition run (cs : list call) (s : PerformanceService) : PerformanceService :=
  fold_left step cs s.

End Monitor.

(** [n] frames, [T] milliseconds apart, the first one [T] after [t0]. *)
Definition steady_frames (t0 T : Q) (n : nat) : list host :=
  map (fun k => mkHost (t0 + inject_Z (Z.of_nat k) * T) None k) (seq 1 n).

(** The order [low < medium < high] of the tiers; [auto] has the
    settings of [high] in the table. *)
Definition tier_level (m : PerformanceMode) : nat :=
  match m with
  | low => 0
  | medium => 1
  | high => 2
  | auto => 2
  end.

(** One evaluation of the threshold table moves the tier by at most one
    level, up or down. *)
Definition one_level_per_evaluation (s : PerformanceService) : Prop :=
  let s' := autoAdjustPerformance s in
  (tier_level (performanceMode s') <= tier_level (performanceMode s) + 1)%nat
  /\ (tier_level (performanceMode s) <= tier_level (performanceMode s') + 1)%nat.

(** The arithmetic mean of a list of samples. *)
Definition mean (l : list Q) : Q :=
  fold_right Qplus 0 l / inject_Z (Z.of_nat (List.length l)).

(** Subscribers that never throw. *)
Definition well_behaved : fn_ref -> PerformanceMetrics -> bool :=
  fun _ _ => false.

(** Subscriber [1] always throws, the others never do. *)
Definition first_faulty : fn_ref -> PerformanceMetrics -> bool :=
  fun cb _ => Nat.eqb cb 1%nat.

(** A service in tier [high] whose only sample is 10 frames per second. *)
Definition high_at_10 : PerformanceService :=
  mkService 60 1000 1000 10 16.67 [10] high 60 [] (Some 1%nat).

(** A service one frame before a window closes, with subscribers [1]
    and [2]. *)
Definition two_subscribers : PerformanceService :=
  subscribe 2%nat (subscribe 1%nat
    (mkService 59 983 0 60 16.67 [] high 60 [] (Some 59%nat))).

(** The same function subscribed twice, then another one. *)
Definition subscribed_twice : PerformanceService :=
  subscribe 8%nat (subscribe 7%nat (subscribe 7%nat (constructor 0 0 0))).

(** The same function subscribed before and after another one. *)
Definition subscribed_around : PerformanceService :=
  subscribe 7%nat (subscribe 8%nat (subscribe 7%nat (constructor 0 0 0))).

(** A slow window (60 frames, 50 ms apart: 20 frames per second) followed
    by a fast one (10 ms apart: 100 frames per second), in mode [auto]. *)
Definition after_slow_window : PerformanceService :=
  run_frames well_behaved (steady_frames 0 50 60)
    (setPerformanceMode auto (constructor 0 0 0)).

Definition after_fast_window : PerformanceService :=
  run_frames well_behaved (steady_frames 3000 10 60) after_slow_window.

(** The host at the frame that closes the window of [two_subscribers]. *)
Definition closing_host : host := mkHost 1000 None 60.

(** The subscriber calls made over a run of frames, in order. *)
Fixpoint run_trace (throws : fn_ref -> PerformanceMetrics -> bool)
    (hs : list host) (s : PerformanceService)
    : list (fn_ref * PerformanceMetrics) :=
  match hs with
  | [] => []
  | h :: rest =>
      let r := monitor throws h s in
      invoked r ++
      match outcome r with
      | Normal => run_trace throws rest (after r)
      | Throw => []
      end
  end.

(** The calls that are [setPerformanceMode]. *)
Definition sets_mode (c : call) : bool :=
  match c with
  | SetPerformanceMode _ => true
  | _ => false
  end.

(** A host used where a list of frames is known not to be empty. *)
Definition no_host : host := mkHost 0 None 0.

(** ** Subscribers that call back

    A subscriber is code of the caller: while it runs it can call the
    public methods of the service, it can change the snapshot object it
    was given, which the next subscriber receives too, and it can keep
    state of its own between calls. *)

(** The public methods a subscriber can call. *)
Inductive method : Type :=
  | CallSetPerformanceMode (mode : PerformanceMode)
  | CallSubscribe (cb : fn_ref)
  | CallUnsubscribe (cb : fn_ref)
  | CallStartMonitoring (raf : nat)
  | CallStopMonitoring.

Definition invoke (s : PerformanceService) (c : method) : PerformanceService :=
  match c with
  | CallSetPerformanceMode mode => setPerformanceMode mode s
  | CallSubscribe cb => subscribe cb s
  | CallUnsubscribe cb => unsubscribe cb s
  | CallStartMonitoring raf => startMonitoring raf s
  | CallStopMonitoring => stopMonitoring s
  end.

(** What one call of a subscriber does: the methods it calls, in order,
    the snapshot object as it leaves it, and how it ends. *)
Record reaction : Type := mkReaction {
  calls_made : list method;
  metrics_left : PerformanceMetrics;
  ending : completion
}.

(** The subscribers' code: what the function behind a reference does on
    its [n]-th call overall (so that it may differ from call to call),
    given the snapshot and the service as it can read it. *)
Definition behaviour : Type :=
  nat -> fn_ref -> PerformanceMetrics -> PerformanceService -> reaction.

(** A subscriber that only looks: it calls nothing and leaves the
    snapshot as it is. *)
Definition observer (throws : fn_ref -> PerformanceMetrics -> bool)
    : behaviour :=
  fun _ cb m _ => mkReaction [] m (if throws cb m then Throw else Normal).

(** [this.callbacks.forEach(callback => callback(metrics))] on the live
    array: the length [len] is read once, the element at index [k] is read
    when its turn comes, and an index that is no longer in the array is
    skipped.  [n] counts the subscriber calls made so far. *)
Fixpoint forEach_live (b : behaviour) (n len k : nat)
    (metrics : PerformanceMetrics) (s : PerformanceService)
    : PerformanceService * list (fn_ref * PerformanceMetrics) * completion :=
  match len with
  | O => (s, [], Normal)
  | S len' =>
      match nth_error (callbacks s) k with
      | None => forEach_live b n len' (S k) metrics s
      | Some cb =>
          let r := b n cb metrics s in
          let s' := fold_left invoke (calls_made r) s in
          match ending r with
          | Throw => (s', [(cb, metrics)], Throw)
          | Normal =>
              let '(s'', calls, c) :=
                forEach_live b (S n) len' (S k) (metrics_left r) s' in
              (s'', (cb, metrics) :: calls, c)
          end
      end
  end.

(** One run of the closure [monitor] with such subscribers. *)
Definition monitor_live (b : behaviour) (n : nat) (h : host)
    (s : PerformanceService) : frame_result :=
  let currentTime := now h in
  let count := S (frameCount s) in
  if (count mod 60 =? 0)%nat then
    let elapsedTime := currentTime - fpsCalculationStartTime s in
    let s1 :=
      mkService count currentTime currentTime (60 * 1000 / elapsedTime)
        (currentTime - lastTime s) (fpsHistory s) (performanceMode s)
        (targetFPS s) (callbacks s) (animationFrameId s) in
    let s2 := updateFPSHistory (fps s1) s1 in
    let s3 :=
      if mode_eqb (performanceMode s2) auto then autoAdjustPerformance s2
      else s2 in
    let metrics := snapshot h s3 in
    match forEach_live b n (List.length (callbacks s3)) 0 metrics s3 with
    | (s4, calls, Normal) =>
        mkFrame (set_animationFrameId (Some (rafHandle h)) s4) calls Normal
    | (s4, calls, Throw) => mkFrame s4 calls Throw
    end
  else
    mkFrame
      (mkService count currentTime (fpsCalculationStartTime s) (fps s)
         (currentTime - lastTime s) (fpsHistory s) (performanceMode s)
         (targetFPS s) (callbacks s) (Some (rafHandle h)))
      [] Normal.

(** The frame loop with such subscribers: the service after the frames,
    and the subscriber calls made, in order. *)
Fixpoint run_frames_live (b : behaviour) (n : nat) (hs : list host)
    (s : PerformanceService) : PerformanceService :=
  match hs with
  | [] => s
  | h :: rest =>
      let r := monitor_live b n h s in
      match outcome r with
      | Normal =>
          run_frames_live b (n + List.length (invoked r)) rest (after r)
      | Throw => after r
      end
  end.

Fixpoint run_trace_live (b : behaviour) (n : nat) (hs : list host)
    (s : PerformanceService) : list (fn_ref * PerformanceMetrics) :=
  match hs with
  | [] => []
  | h :: rest =>
      let r := monitor_live b n h s in
      invoked r ++
      match outcome r with
      | Normal =>
          run_trace_live b (n + List.length (invoked r)) rest (after r)
      | Throw => []
      end
  end.

(** Subscriber [1] takes itself off the list and returns; the others
    only look. *)
Definition self_unsubscribing : behaviour :=
  fun _ cb m _ =>
    if Nat.eqb cb 1 then mkReaction [CallUnsubscribe 1%nat] m Normal
    else mkReaction [] m Normal.

End Governor.

(* ------------------------------------------------------------------ *)
(** * The error tracker (ErrorTrackingService.ts) *)

Module ErrorTracking.

Inductive WebGLErrorType : Type :=
  | webgl_context_lost
  | webgl_not_supported
  | shader_compilation_error
  | texture_load_error
  | model_load_error.

(** The values that occur in [additionalData]. *)
Inductive JsValue : Type :=
  | JsBool (b : bool)
  | JsNumber (n : Z)
  | JsString (s : string)
  | JsUndefined.

Record WebGLError : Type := mkError {
  e_type : WebGLErrorType;
  e_message : string;
  e_stack : option string;
  e_userAgent : string;
  e_timestamp : Z;
  e_additionalData : option (list (string * JsValue))
}.

Inductive PerformanceIssueType : Type :=
  | low_fps
  | high_memory
  | slow_load_time
  | render_timeout.

Record PerformanceIssue : Type := mkIssue {
  i_type : PerformanceIssueType;
  i_value : Q;
  i_threshold : Q;
  i_timestamp : Z
}.

Record ErrorTrackingService : Type := mkTracker {
  errors : list WebGLError;
  performanceIssues : list PerformanceIssue
}.

Definition maxStoredErrors : nat := 50.
Definition maxStoredIssues : nat := 100.

(** The tracker before any call: both lists empty. *)
Definition empty : ErrorTrackingService := mkTracker [] [].

(** Where the code runs: [typeof window !== 'undefined'],
    [import.meta.env.PROD] and ['gtag' in window]. *)
Record env : Type := mkEnv {
  hasWindow : bool;
  PROD : bool;
  hasGtag : bool
}.

Inductive tracked : Type :=
  | ErrorData (e : WebGLError)
  | IssueData (i : PerformanceIssue).

(** One call of [gtag('event', eventName, {...})]. *)
Record gtag_event : Type := mkEvent {
  eventName : string;
  event_category : string;
  event_label : WebGLErrorType + PerformanceIssueType;
  event_value : Q;
  custom_parameters : tracked
}.

Definition reportToAnalytics (v : env) (name : string) (data : tracked)
    : list gtag_event :=
  if hasWindow v && hasGtag v then
    [mkEvent name "WebGL"
       (match data with
        | ErrorData e => inl (e_type e)
        | IssueData i => inr (i_type i)
        end)
       (match data with IssueData i => i_value i | ErrorData _ => 1%Q end)
       data]
  else [].

(** [trackError]: the new tracker and the analytics calls made. *)
Definition trackError (v : env) (error : WebGLError) (s : ErrorTrackingService)
    : ErrorTrackingService * list gtag_event :=
  let unshifted := error :: errors s in
  let kept :=
    if (maxStoredErrors <? List.length unshifted)%nat
    then firstn maxStoredErrors unshifted else unshifted in
  (mkTracker kept (performanceIssues s),
   if hasWindow v && PROD v
   then reportToAnalytics v "webgl_error" (ErrorData error) else []).

Definition trackPerformanceIssue (v : env) (issue : PerformanceIssue)
    (s : ErrorTrackingService) : ErrorTrackingService * list gtag_event :=
  let unshifted := issue :: performanceIssues s in
  let kept :=
    if (maxStoredIssues <? List.length unshifted)%nat
    then firstn maxStoredIssues unshifted else unshifted in
  (mkTracker (errors s) kept,
   if hasWindow v && PROD v
   then reportToAnalytics v "performance_issue" (IssueData issue) else []).

Definition clearErrors (s : ErrorTrackingService) : ErrorTrackingService :=
  mkTracker [] [].

(** A sequence of tracking calls, oldest first. *)
Definition track_all (v : env) (items : list tracked)
    (s : ErrorTrackingService) : ErrorTrackingService :=
  fold_left
    (fun acc item =>
       match item with
       | ErrorData e => fst (trackError v e acc)
       | IssueData i => fst (trackPerformanceIssue v i acc)
       end)
    items s.

Definition errors_of (items : list tracked) : list WebGLError :=
  flat_map (fun item => match item with ErrorData e => [e] | IssueData _ => [] end)
    items.

Definition issues_of (items : list tracked) : list PerformanceIssue :=
  flat_map (fun item => match item with IssueData i => [i] | ErrorData _ => [] end)
    items.

(** Sixty errors [e 0], ..., [e 59], tracked in this order. *)
Definition sixty (e : nat -> WebGLError) : list tracked :=
  map (fun k => ErrorData (e k)) (seq 0 60).

Definition error_type_eqb (a b : WebGLErrorType) : bool :=
  match a, b with
  | webgl_context_lost, webgl_context_lost
  | webgl_not_supported, webgl_not_supported
  | shader_compilation_error, shader_compilation_error
  | texture_load_error, texture_load_error
  | model_load_error, model_load_error => true
  | _, _ => false
  end.

Definition issue_type_eqb (a b : PerformanceIssueType) : bool :=
  match a, b with
  | low_fps, low_fps
  | high_memory, high_memory
  | slow_load_time, slow_load_time
  | render_timeout, render_timeout => true
  | _, _ => false
  end.

Section Counting.

(** The accumulator of the two [reduce] calls: an object used as a map
    from type names to counts, its keys in insertion order. *)
Context {K : Type}.
Variable eqb : K -> K -> bool.

(** [acc[k]]; [None] is [undefined]. *)
Fixpoint lookup (k : K) (acc : list (K * nat)) : option nat :=
  match acc with
  | [] => None
  | (k', n) :: rest => if eqb k' k then Some n else lookup k rest
  end.

(** [(acc[k] || 0)]. *)
Definition count_or_zero (k : K) (acc : list (K * nat)) : nat :=
  match lookup k acc with
  | Some n => n
  | None => 0%nat
  end.

(** [acc[k] = v]: an existing key keeps its place, a new key goes last. *)
Fixpoint assign (k : K) (v : nat) (acc : list (K * nat)) : list (K * nat) :=
  match acc with
  | [] => [(k, v)]
  | (k', n) :: rest =>
      if eqb k' k then (k', v) :: rest else (k', n) :: assign k v rest
  end.

(** [acc[x.type] = (acc[x.type] || 0) + 1; return acc] over the list. *)
Definition countByType {A : Type} (type_of : A -> K) (l : list A)
    : list (K * nat) :=
  fold_left
    (fun acc item =>
       assign (type_of item) (count_or_zero (type_of item) acc + 1)%nat acc)
    l [].

End Counting.

Record ErrorSummary : Type := mkErrorSummary {
  totalErrors : nat;
  errorsByType : list (WebGLErrorType * nat);
  recentErrors : list WebGLError
}.

Record PerformanceSummary : Type := mkPerformanceSummary {
  totalIssues : nat;
  issuesByType : list (PerformanceIssueType * nat);
  recentIssues : list PerformanceIssue
}.

Definition getErrorSummary (s : ErrorTrackingService) : ErrorSummary :=
  mkErrorSummary (List.length (errors s))
    (countByType error_type_eqb e_type (errors s))
    (firstn 5 (errors s)).

Definition getPerformanceSummary (s : ErrorTrackingService)
    : PerformanceSummary :=
  mkPerformanceSummary (List.length (performanceIssues s))
    (countByType issue_type_eqb i_type (performanceIssues s))
    (firstn 5 (performanceIssues s)).

(** The sum of the counts stored in an accumulator. *)
Definition total_count {K : Type} (acc : list (K * nat)) : nat :=
  fold_right (fun kv t => (snd kv + t)%nat) 0%nat acc.

(** ** Keyword classification of runtime faults

    Messages are modelled as strings of ASCII characters, on which
    [toLowerCase] maps ['A'..'Z'] to ['a'..'z'] and keeps the rest. *)

Definition lowerChar (c : ascii) : ascii :=
  let n := nat_of_ascii c in
  if (65 <=? n)%nat && (n <=? 90)%nat then ascii_of_nat (n + 32) else c.

Fixpoint toLowerCase (s : string) : string :=
  match s with
  | EmptyString => EmptyString
  | String c rest => String (lowerChar c) (toLowerCase rest)
  end.

(** [hay.includes(needle)]. *)
Fixpoint includes (hay needle : string) : bool :=
  String.prefix needle hay
  || match hay with
     | EmptyString => false
     | String _ rest => includes rest needle
     end.

Definition webglKeywords : list string :=
  ["webgl"; "gl_"; "shader"; "texture"; "buffer"; "framebuffer";
   "three.js"; "threejs"; "webglrenderer"; "glcontext"]%string.

(** What the handlers read of a thrown value: its [message] and [stack],
    each possibly [undefined]. *)
Record ErrorObject : Type := mkErrorObject {
  err_message : option string;
  err_stack : option string
}.

(** [x || ''] on a string that may be [undefined]. *)
Definition or_empty (m : option string) : string :=
  match m with
  | Some s => s
  | None => EmptyString
  end.

Definition isWebGLRelated (error : option ErrorObject) : bool :=
  match error with
  | None => false
  | Some e =>
      let errorMessage := toLowerCase (or_empty (err_message e)) in
      existsb (fun keyword => includes errorMessage keyword) webglKeywords
  end.

(** What a listener reads from the browser when it runs:
    [navigator.userAgent] and [Date.now()]. *)
Record clock : Type := mkClock {
  userAgent : string;
  dateNow : Z
}.

(** [x || 'Promise rejection']: the empty string is falsy. *)
Definition or_promise_rejection (m : option string) : string :=
  match m with
  | Some EmptyString | None => "Promise rejection"
  | Some s => s
  end.

(** The ['unhandledrejection'] listener of [setupGlobalErrorHandlers]. *)
Definition onUnhandledRejection (v : env) (c : clock)
    (reason : option ErrorObject) (s : ErrorTrackingService)
    : ErrorTrackingService * list gtag_event :=
  if isWebGLRelated reason then
    match reason with
    | Some r =>
        trackError v
          (mkError model_load_error (or_promise_rejection (err_message r))
             (err_stack r) (userAgent c) (dateNow c) None)
          s
    | None => (s, [])
    end
  else (s, []).

(** The keywords that are not made redundant by a shorter one. *)
Definition coreKeywords : list string :=
  ["webgl"; "gl_"; "shader"; "texture"; "buffer"; "three.js"; "threejs";
   "glcontext"]%string.

End ErrorTracking.

(* ------------------------------------------------------------------ *)
(** * The scene state store (sceneStore.ts) *)

Module SceneStore.

Open Scope Q_scope.

Record Vector3 : Type := mkVec { x : Q; y : Q; z : Q }.

(** The stored preferences.  A field holds its value or, once an update
    has written it, [undefined] ([None]): the type of the update object
    admits that, see below. *)
Record UserPreferences : Type := mkPrefs {
  reducedMotion : option bool;
  audioEnabled : option bool;
  skipIntroduction : option bool;
  pref_performanceMode : option PerformanceMode
}.

(** [Partial<UserPreferences>]: a key is absent ([None]) or present
    ([Some v]); a present key holds a value ([Some (Some x)]) or
    [undefined] ([Some None]), which the type admits. *)
Record PartialUserPreferences : Type := mkPartial {
  p_reducedMotion : option (option bool);
  p_audioEnabled : option (option bool);
  p_skipIntroduction : option (option bool);
  p_performanceMode : option (option PerformanceMode)
}.

Record SceneState : Type := mkState {
  loaded : bool;
  currentZone : string;
  loadingProgress : Q;
  userPosition : Vector3;
  cameraTarget : Vector3;
  cameraRotation : Q * Q;
  performanceMode : PerformanceMode;
  currentFPS : Q;
  averageFPS : Q;
  userPreferences : UserPreferences;
  isNavigating : bool;
  lastInteractionTime : Z;
  error : option string
}.

(** [initialState]; [t0] is [Date.now()] when the module is loaded. *)
Definition initialState (t0 : Z) : SceneState :=
  mkState false "main" 0 (mkVec 0 0 5) (mkVec 0 0 0) (0, 0) auto 60 60
    (mkPrefs (Some false) (Some true) (Some false) (Some auto)) false t0 None.

(** What [initializeDefaults] reads from the browser. *)
Record browser : Type := mkBrowser {
  isMobile : bool;
  hardwareConcurrency : option nat;
  prefersReducedMotion : bool
}.

(** [navigator.hardwareConcurrency <= 2]; the comparison is false when
    the browser does not define the property. *)
Definition isLowEndDevice (b : browser) : bool :=
  match hardwareConcurrency b with
  | Some n => (n <=? 2)%nat
  | None => false
  end.

(** [{ ...old, ...preferences }]: every own key of [preferences] is
    copied, also one whose value is [undefined]. *)
Definition spread (old : UserPreferences) (p : PartialUserPreferences)
    : UserPreferences :=
  mkPrefs
    (match p_reducedMotion p with Some v => v | None => reducedMotion old end)
    (match p_audioEnabled p with Some v => v | None => audioEnabled old end)
    (match p_skipIntroduction p with
     | Some v => v
     | None => skipIntroduction old
     end)
    (match p_performanceMode p with
     | Some v => v
     | None => pref_performanceMode old
     end).

(** The named operations of [SceneActions]; those that read the clock
    carry [Date.now()]. *)
Inductive action : Type :=
  | setLoaded (b : bool)
  | setCurrentZone (zone : string)
  | setLoadingProgress (progress : Q)
  | updateUserPosition (position : Vector3)
  | updateCameraTarget (target : Vector3)
  | updateCameraRotation (rotation : Q * Q)
  | setPerformanceMode (mode : PerformanceMode)
  | updateFPS (fps : Q)
  | updateAverageFPS (averageFPS : Q)
  | updateUserPreferences (preferences : PartialUserPreferences)
  | setIsNavigating (navigating : bool)
  | updateLastInteractionTime (dateNow : Z)
  | setError (e : option string)
  | resetScene (dateNow : Z)
  | initializeDefaults (b : browser) (dateNow : Z).

(** The body each operation passes to [set]; [t0] is the load time
    that [initialState] holds. *)
Definition apply (t0 : Z) (s : SceneState) (a : action) : SceneState :=
  match a with
  | setLoaded b =>
      mkState b (currentZone s) (loadingProgress s) (userPosition s)
        (cameraTarget s) (cameraRotation s) (performanceMode s) (currentFPS s)
        (averageFPS s) (userPreferences s) (isNavigating s)
        (lastInteractionTime s) (error s)
  | setCurrentZone zone =>
      mkState (loaded s) zone (loadingProgress s) (userPosition s)
        (cameraTarget s) (cameraRotation s) (performanceMode s) (currentFPS s)
        (averageFPS s) (userPreferences s) (isNavigating s)
        (lastInteractionTime s) (error s)
  | setLoadingProgress progress =>
      mkState (loaded s) (currentZone s) (Qmax 0 (Qmin 100 progress))
        (userPosition s) (cameraTarget s) (cameraRotation s)
        (performanceMode s) (currentFPS s) (averageFPS s) (userPreferences s)
        (isNavigating s) (lastInteractionTime s) (error s)
  | updateUserPosition position =>
      mkState (loaded s) (currentZone s) (loadingProgress s) position
        (cameraTarget s) (cameraRotation s) (performanceMode s) (currentFPS s)
        (averageFPS s) (userPreferences s) (isNavigating s)
        (lastInteractionTime s) (error s)
  | updateCameraTarget target =>
      mkState (loaded s) (currentZone s) (loadingProgress s) (userPosition s)
        target (cameraRotation s) (performanceMode s) (currentFPS s)
        (averageFPS s) (userPreferences s) (isNavigating s)
        (lastInteractionTime s) (error s)
  | updateCameraRotation rotation =>
      mkState (loaded s) (currentZone s) (loadingProgress s) (userPosition s)
        (cameraTarget s) rotation (performanceMode s) (currentFPS s)
        (averageFPS s) (userPreferences s) (isNavigating s)
        (lastInteractionTime s) (error s)
  | setPerformanceMode mode =>
      mkState (loaded s) (currentZone s) (loadingProgress s) (userPosition s)
        (cameraTarget s) (cameraRotation s) mode (currentFPS s) (averageFPS s)
        (mkPrefs (reducedMotion (userPreferences s))
           (audioEnabled (userPreferences s))
           (skipIntroduction (userPreferences s)) (Some mode))
        (isNavigating s) (lastInteractionTime s) (error s)
  | updateFPS fps =>
      mkState (loaded s) (currentZone s) (loadingProgress s) (userPosition s)
        (cameraTarget s) (cameraRotation s) (performanceMode s) fps
        (averageFPS s) (userPreferences s) (isNavigating s)
        (lastInteractionTime s) (error s)
  | updateAverageFPS avg =>
      mkState (loaded s) (currentZone s) (loadingProgress s) (userPosition s)
        (cameraTarget s) (cameraRotation s) (performanceMode s) (currentFPS s)
        avg (userPreferences s) (isNavigating s) (lastInteractionTime s)
        (error s)
  | updateUserPreferences preferences =>
      mkState (loaded s) (currentZone s) (loadingProgress s) (userPosition s)
        (cameraTarget s) (cameraRotation s)
        (match p_performanceMode preferences with
         | Some (Some m) => m
         | Some None | None => performanceMode s
         end)
        (currentFPS s) (averageFPS s)
        (spread (userPreferences s) preferences)
        (isNavigating s) (lastInteractionTime s) (error s)
  | setIsNavigating navigating =>
      mkState (loaded s) (currentZone s) (loadingProgress s) (userPosition s)
        (cameraTarget s) (cameraRotation s) (performanceMode s) (currentFPS s)
        (averageFPS s) (userPreferences s) navigating (lastInteractionTime s)
        (error s)
  | updateLastInteractionTime dateNow =>
      mkState (loaded s) (currentZone s) (loadingProgress s) (userPosition s)
        (cameraTarget s) (cameraRotation s) (performanceMode s) (currentFPS s)
        (averageFPS s) (userPreferences s) (isNavigating s) dateNow (error s)
  | setError e =>
      mkState (loaded s) (currentZone s) (loadingProgress s) (userPosition s)
        (cameraTarget s) (cameraRotation s) (performanceMode s) (currentFPS s)
        (averageFPS s) (userPreferences s) (isNavigating s)
        (lastInteractionTime s) e
  | resetScene dateNow =>
      let i := initialState t0 in
      mkState (loaded i) (currentZone i) (loadingProgress i) (userPosition i)
        (cameraTarget i) (cameraRotation i) (performanceMode i) (currentFPS i)
        (averageFPS i) (userPreferences i) (isNavigating i) dateNow (error i)
  | initializeDefaults b dateNow =>
      let degrade := isMobile b || isLowEndDevice b in
      let mode := if degrade then medium else performanceMode s in
      let prefMode :=
        if degrade then Some medium
        else pref_performanceMode (userPreferences s) in
      mkState (loaded s) (currentZone s) (loadingProgress s) (userPosition s)
        (cameraTarget s) (cameraRotation s) mode (currentFPS s) (averageFPS s)
        (mkPrefs
           (if prefersReducedMotion b then Some true
            else reducedMotion (userPreferences s))
           (audioEnabled (userPreferences s))
           (skipIntroduction (userPreferences s)) prefMode)
        (isNavigating s) dateNow (error s)
  end.

(** The store after a sequence of operations on the initial state. *)
Definition store_after (t0 : Z) (acts : list action) : SceneState :=
  fold_left (apply t0) acts (initialState t0).

(** [clamp(x, lo, hi)] as the specification writes it. *)
Definition clamp (v lo hi : Q) : Q :=
  if Qltb v lo then lo else if Qltb hi v then hi else v.

(** The operations that write a performance mode. *)
Definition writes_mode (a : action) : bool :=
  match a with
  | setPerformanceMode _ => true
  | updateUserPreferences p =>
      match p_performanceMode p with Some _ => true | None => false end
  | resetScene _ => true
  | initializeDefaults b _ =>
      isMobile b || isLowEndDevice b
  | _ => false
  end.

(** The invariant that ties the two copies of the performance mode. *)
Definition modes_agree (s : SceneState) : Prop :=
  pref_performanceMode (userPreferences s) = Some (performanceMode s).

(** [{ performanceMode: undefined }]. *)
Definition undefinedMode : PartialUserPreferences :=
  mkPartial None None None (Some None).

(** The operations other than a preference update whose [performanceMode]
    key is present with the value [undefined]. *)
Definition mode_defined (a : action) : bool :=
  match a with
  | updateUserPreferences p =>
      match p_performanceMode p with Some None => false | _ => true end
  | _ => true
  end.

(** [{ ...p, ...q }] on two partial preference objects. *)
Definition merge_partial (p q : PartialUserPreferences)
    : PartialUserPreferences :=
  let over {T : Type} (a b : option T) : option T :=
    match b with Some _ => b | None => a end in
  mkPartial
    (over (p_reducedMotion p) (p_reducedMotion q))
    (over (p_audioEnabled p) (p_audioEnabled q))
    (over (p_skipIntroduction p) (p_skipIntroduction q))
    (over (p_performanceMode p) (p_performanceMode q)).

(** [{}] as a partial preference object. *)
Definition noPreferences : PartialUserPreferences :=
  mkPartial None None None None.

End SceneStore.

(* ------------------------------------------------------------------ *)
(** * The camera controller (CameraController.tsx) *)

Module Camera.

Open Scope R_scope.

(** The part of three.js's [Vector3] the controller uses (the library
    is a dependency, not code of the repository): [length] is the
    Euclidean norm, [normalize] is [divideScalar(length() || 1)] and
    [divideScalar(s)] is [multiplyScalar(1 / s)]. *)
Record Vector3 : Type := mkVec { x : R; y : R; z : R }.

Definition length (v : Vector3) : R :=
  sqrt (x v * x v + y v * y v + z v * z v).

Definition multiplyScalar (v : Vector3) (s : R) : Vector3 :=
  mkVec (x v * s) (y v * s) (z v * s).

Definition divideScalar (v : Vector3) (s : R) : Vector3 :=
  multiplyScalar v (1 / s).

Definition normalize (v : Vector3) : Vector3 :=
  divideScalar v (if Req_dec_T (length v) 0 then 1 else length v).

Definition add (a b : Vector3) : Vector3 :=
  mkVec (x a + x b) (y a + y b) (z a + z b).

Definition addScaledVector (v a : Vector3) (s : R) : Vector3 :=
  mkVec (x v + x a * s) (y v + y a * s) (z v + z a * s).

Definition crossVectors (a b : Vector3) : Vector3 :=
  mkVec (y a * z b - z a * y b) (z a * x b - x a * z b)
    (x a * y b - y a * x b).

Definition distanceTo (a b : Vector3) : R :=
  let dx := x a - x b in
  let dy := y a - y b in
  let dz := z a - z b in
  sqrt (dx * dx + dy * dy + dz * dz).

Definition Reqb (a b : R) : bool := if Req_dec_T a b then true else false.
Definition Rltb (a b : R) : bool := if Rlt_dec a b then true else false.

Definition equals (a b : Vector3) : bool :=
  Reqb (x b) (x a) && Reqb (y b) (y a) && Reqb (z b) (z a).

Definition set_y (v : Vector3) (w : R) : Vector3 := mkVec (x v) w (z v).

Definition worldUp : Vector3 := mkVec 0 1 0.

(** [keys.current]. *)
Record Keys : Type := mkKeys {
  forward : bool;
  backward : bool;
  left : bool;
  right : bool;
  up : bool;
  down : bool
}.

Definition noKeys : Keys := mkKeys false false false false false false.

Record CameraControllerProps : Type := mkProps {
  enabled : bool;
  movementSpeed : R;
  lookSpeed : R
}.

(** The defaults of the destructured props. *)
Definition defaultProps : CameraControllerProps := mkProps true 10 2.

(** The camera object: its position and the two Euler angles the
    controller writes. *)
Record CameraObject : Type := mkCamera {
  position : Vector3;
  rotation_x : R;
  rotation_y : R
}.

(** What the component holds between frames.  The refs [velocity] and
    [direction] are scratch: each frame sets them before reading them. *)
Record Controller : Type := mkController {
  camera : CameraObject;
  keys : Keys;
  mousePos : R * R;
  isMouseDown : bool;
  lastPosition : Vector3
}.

(** The calls the frame makes on the scene store. *)
Inductive store_call : Type :=
  | UpdateCameraRotation (rx ry : R)
  | SetIsNavigating (navigating : bool)
  | UpdateLastInteractionTime
  | UpdateUserPosition (p : Vector3).

(** [direction.current] after the six [if]s. *)
Definition keyDirection (k : Keys) : Vector3 :=
  let dz := (if forward k then 0 - 1 else 0) in
  let dz := (if backward k then dz + 1 else dz) in
  let dx := (if left k then 0 - 1 else 0) in
  let dx := (if right k then dx + 1 else dx) in
  let dy := (if up k then 0 + 1 else 0) in
  let dy := (if down k then dy - 1 else dy) in
  mkVec dx dy dz.

(** The "basic collision boundaries" at the end of the frame. *)
Definition clampPosition (p : Vector3) : Vector3 :=
  let p1 := set_y p (Rmax 0.5 (y p)) in
  let p2 := set_y p1 (Rmin 50 (y p1)) in
  let maxDistance := 100 in
  if Rltb maxDistance (length p2)
  then multiplyScalar (normalize p2) maxDistance
  else p2.

Section Frame.

(** [camera.getWorldDirection] is three.js code; the controller only
    needs that it returns some vector for the camera. *)
Variable getWorldDirection : CameraObject -> Vector3.
Variable props : CameraControllerProps.

(** The camera position after the movement block of the frame. *)
Definition moved (delta : R) (cam : CameraObject) (k : Keys) : Vector3 :=
  let direction := keyDirection k in
  if Rltb 0 (length direction) then
    let direction := normalize direction in
    let cameraDirection := getWorldDirection cam in
    let right := normalize (crossVectors cameraDirection worldUp) in
    let forward := normalize (crossVectors worldUp right) in
    let velocity := mkVec 0 0 0 in
    let velocity := addScaledVector velocity right (x direction) in
    let velocity := addScaledVector velocity worldUp (y direction) in
    let velocity := addScaledVector velocity forward (- z direction) in
    let velocity := multiplyScalar velocity (movementSpeed props * delta) in
    add (position cam) velocity
  else position cam.

(** The callback given to [useFrame]: the controller after the frame and
    the store calls made, in order. *)
Definition useFrame (delta : R) (c : Controller)
    : Controller * list store_call :=
  if negb (enabled props) then (c, [])
  else
    let ry := - fst (mousePos c) in
    let rx := Rmax (- PI / 2) (Rmin (PI / 2) (- snd (mousePos c))) in
    let cam1 := mkCamera (position (camera c)) rx ry in
    let isMoving := Rltb 0 (length (keyDirection (keys c))) in
    let isRotating := isMouseDown c in
    let isNavigatingNow := isMoving || isRotating in
    let pos := clampPosition (moved delta cam1 (keys c)) in
    let cam2 := mkCamera pos rx ry in
    let publish :=
      negb (equals (lastPosition c) pos)
      && Rltb 0.1 (distanceTo (lastPosition c) pos) in
    (mkController cam2 (keys c) (mousePos c) (isMouseDown c)
       (if publish then pos else lastPosition c),
     [UpdateCameraRotation rx ry; SetIsNavigating isNavigatingNow]
     ++ (if isNavigatingNow then [UpdateLastInteractionTime] else [])
     ++ (if publish then [UpdateUserPosition pos] else [])).

End Frame.

(** A controller at rest: no key held, pointer not captured, no look
    offset accumulated. *)
Definition atRest (p : Vector3) : Controller :=
  mkController (mkCamera p 0 0) noKeys (0, 0) false (mkVec 0 0 0).

(** A camera whose world direction is the default one of three.js. *)
Definition looking_down_z : CameraObject -> Vector3 :=
  fun _ => mkVec 0 0 (-1).

(** Straight above the origin, at distance 150. *)
Definition overhead : Vector3 := mkVec 0 150 0.

(** Low above the ground, at distance 125.0005. *)
Definition grazing : Vector3 := mkVec 124.9995 0.5 0.

(** At distance 150, with the vertical component inside its range. *)
Definition far_corner : Vector3 := mkVec 100 50 100.

(** The camera position after one frame. *)
Definition position_after (getWorldDirection : CameraObject -> Vector3)
    (props : CameraControllerProps) (delta : R) (c : Controller) : Vector3 :=
  position (camera (fst (useFrame getWorldDirection props delta c))).

(** ** The input listeners *)

(** [handleKeyDown] on [event.code]: the keys afterwards, and whether
    [event.preventDefault()] was called. *)
Definition handleKeyDown (code : string) (k : Keys) : Keys * bool :=
  if (String.eqb code "KeyW" || String.eqb code "ArrowUp")%bool then
    (mkKeys true (backward k) (left k) (right k) (up k) (down k), false)
  else if (String.eqb code "KeyS" || String.eqb code "ArrowDown")%bool then
    (mkKeys (forward k) true (left k) (right k) (up k) (down k), false)
  else if (String.eqb code "KeyA" || String.eqb code "ArrowLeft")%bool then
    (mkKeys (forward k) (backward k) true (right k) (up k) (down k), false)
  else if (String.eqb code "KeyD" || String.eqb code "ArrowRight")%bool then
    (mkKeys (forward k) (backward k) (left k) true (up k) (down k), false)
  else if String.eqb code "Space" then
    (mkKeys (forward k) (backward k) (left k) (right k) true (down k), true)
  else if (String.eqb code "ShiftLeft" || String.eqb code "ShiftRight")%bool
  then
    (mkKeys (forward k) (backward k) (left k) (right k) (up k) true, false)
  else (k, false).

Definition handleKeyUp (code : string) (k : Keys) : Keys :=
  if (String.eqb code "KeyW" || String.eqb code "ArrowUp")%bool then
    mkKeys false (backward k) (left k) (right k) (up k) (down k)
  else if (String.eqb code "KeyS" || String.eqb code "ArrowDown")%bool then
    mkKeys (forward k) false (left k) (right k) (up k) (down k)
  else if (String.eqb code "KeyA" || String.eqb code "ArrowLeft")%bool then
    mkKeys (forward k) (backward k) false (right k) (up k) (down k)
  else if (String.eqb code "KeyD" || String.eqb code "ArrowRight")%bool then
    mkKeys (forward k) (backward k) (left k) false (up k) (down k)
  else if String.eqb code "Space" then
    mkKeys (forward k) (backward k) (left k) (right k) false (down k)
  else if (String.eqb code "ShiftLeft" || String.eqb code "ShiftRight")%bool
  then
    mkKeys (forward k) (backward k) (left k) (right k) (up k) false
  else k.

(** [setMousePos(prev => ...)] with the offsets [dx] and [dy]. *)
Definition addLook (dx dy : R) (c : Controller) : Controller :=
  mkController (camera c) (keys c)
    (fst (mousePos c) + dx, snd (mousePos c) + dy)
    (isMouseDown c) (lastPosition c).

Definition setIsMouseDown (b : bool) (c : Controller) : Controller :=
  mkController (camera c) (keys c) (mousePos c) b (lastPosition c).

(** [x || 0] on a number that may be [undefined]. *)
Definition or_zero (v : option R) : R :=
  match v with
  | Some r => r
  | None => 0
  end.

Definition handleMouseMove (props : CameraControllerProps)
    (movementX movementY : option R) (c : Controller) : Controller :=
  if negb (isMouseDown c) then c
  else
    addLook (or_zero movementX * lookSpeed props * 0.002)
      (or_zero movementY * lookSpeed props * 0.002) c.

(** [event.button === 0] is the left button. *)
Definition handleMouseDown (button : nat) (c : Controller) : Controller :=
  if Nat.eqb button 0 then setIsMouseDown true c else c.

Definition handleMouseUp (button : nat) (c : Controller) : Controller :=
  if Nat.eqb button 0 then setIsMouseDown false c else c.

(** The two variables of the touch effect. *)
Record TouchState : Type := mkTouch {
  touchStart : R * R;
  isTouching : bool
}.

(** The effect starts with [{ x: 0, y: 0 }] and [false]. *)
Definition noTouch : TouchState := mkTouch (0, 0) false.

(** A listener gets [clientX] and [clientY] of [event.touches[0]]. *)
Definition handleTouchStart (clientX clientY : R) (t : TouchState)
    : TouchState :=
  mkTouch (clientX, clientY) true.

Definition handleTouchMove (props : CameraControllerProps)
    (clientX clientY : R) (ct : Controller * TouchState)
    : Controller * TouchState :=
  let (c, t) := ct in
  if negb (isTouching t) then (c, t)
  else
    let deltaX := clientX - fst (touchStart t) in
    let deltaY := clientY - snd (touchStart t) in
    (addLook (deltaX * lookSpeed props * 0.001)
       (deltaY * lookSpeed props * 0.001) c,
     mkTouch (clientX, clientY) (isTouching t)).

Definition handleTouchEnd (t : TouchState) : TouchState :=
  mkTouch (touchStart t) false.

(** A drag: the finger goes down at [p0] and moves through [ps]. *)
Definition drag (props : CameraControllerProps) (p0 : R * R)
    (ps : list (R * R)) (c : Controller) : Controller * TouchState :=
  fold_left (fun ct p => handleTouchMove props (fst p) (snd p) ct) ps
    (c, handleTouchStart (fst p0) (snd p0) noTouch).

(** The frame decides that the user is navigating. *)
Definition navigating (c : Controller) : Prop :=
  isMouseDown c = true \/ keyDirection (keys c) <> mkVec 0 0 0.

(** The displacement of a position. *)
Definition displacement (a b : Vector3) : Vector3 :=
  mkVec (x b - x a) (y b - y a) (z b - z a).

(** Every key held in [a] is held in [b]. *)
Definition held_in (a b : Keys) : Prop :=
  (forward a = true -> forward b = true)
  /\ (backward a = true -> backward b = true)
  /\ (left a = true -> left b = true)
  /\ (right a = true -> right b = true)
  /\ (up a = true -> up b = true)
  /\ (down a = true -> down b = true).

(** The squared norm of a vector. *)
Definition normSq (v : Vector3) : R := x v * x v + y v * y v + z v * z v.

(** Only the vertical keys decide: the horizontal ones are released or
    cancel, and exactly one of up and down is held. *)
Definition vertical_only (k : Keys) : Prop :=
  forward k = backward k /\ left k = right k /\ up k = negb (down k).

End Camera.

(* ------------------------------------------------------------------ *)
(** * Facts about the shared vocabulary *)

Lemma mode_eqb_spec (a b : PerformanceMode) : reflect (a = b) (mode_eqb a b).
Proof. destruct a, b; simpl; constructor; congruence. Qed.

Lemma Qltb_lt (a b : Q) : Qltb a b = true <-> (a < b)%Q.
Proof.
  unfold Qltb. rewrite Qlt_alt. destruct (Qcompare a b); split; congruence.
Qed.

Lemma Qltb_ge (a b : Q) : Qltb a b = false <-> (b <= a)%Q.
Proof.
  unfold Qltb. rewrite Qle_alt, <- (Qcompare_antisym b a).
  destruct (Qcompare b a); simpl; split; congruence.
Qed.

(* ------------------------------------------------------------------ *)
(** * Facts about the governor *)

Module GovernorFacts.

Import Governor.
Open Scope Q_scope.

(** Boolean threshold tests of the context as rational inequalities. *)
Ltac thresholds :=
  repeat match goal with
    | H : Qltb _ _ = true |- _ => apply Qltb_lt in H
    | H : Qltb _ _ = false |- _ => apply Qltb_ge in H
    end.

(** ** The threshold table *)

(** The table row by row, on the mode alone. *)
Lemma autoAdjust_mode (s : PerformanceService) :
  performanceMode (autoAdjustPerformance s) =
  let a := getAverageFPS s in
  match performanceMode s with
  | low => if Qltb 55 a then medium else low
  | medium => if Qltb a 25 then low else if Qltb 55 a then high else medium
  | high => if Qltb a 25 then low else if Qltb a 40 then medium else high
  | auto => if Qltb a 25 then low else auto
  end.
Proof.
  unfold autoAdjustPerformance.
  destruct (performanceMode s) eqn:M; simpl;
    destruct (Qltb (getAverageFPS s) 25) eqn:A; simpl;
    destruct (Qltb (getAverageFPS s) 40) eqn:B; simpl;
    destruct (Qltb 55 (getAverageFPS s)) eqn:C; simpl; auto.
  all: thresholds; Lqa.lra.
Qed.

(** C2, as stated, fails: tier [high] with average 10 becomes [low] in one
    evaluation, two levels down. *)
Lemma high_drops_to_low_at_once :
  performanceMode high_at_10 = high
  /\ getAverageFPS high_at_10 == 10
  /\ performanceMode (autoAdjustPerformance high_at_10) = low
  /\ ~ one_level_per_evaluation high_at_10.
Proof.
  repeat split; try reflexivity.
  unfold one_level_per_evaluation. vm_compute. intros [_ H]. lia.
Qed.

(** C2, amended: one evaluation raises the tier by at most one level
    (never [low] to [high]); it lowers it by at most one level when the
    average is at least 25, and to [low] from any tier when the average is
    below 25. *)
Theorem autoAdjust_one_level_up (s : PerformanceService) :
  performanceMode s <> auto ->
  let s' := autoAdjustPerformance s in
  (tier_level (performanceMode s') <= tier_level (performanceMode s) + 1)%nat
  /\ (25 <= getAverageFPS s ->
      (tier_level (performanceMode s) <= tier_level (performanceMode s') + 1)%nat)
  /\ (getAverageFPS s < 25 -> performanceMode s' = low)
  /\ (performanceMode s = low -> performanceMode s' <> high).
Proof.
  intros Hm s'. subst s'. rewrite autoAdjust_mode. cbv zeta.
  destruct (performanceMode s); try congruence;
    destruct (Qltb (getAverageFPS s) 25) eqn:A;
    destruct (Qltb (getAverageFPS s) 40) eqn:B;
    destruct (Qltb 55 (getAverageFPS s)) eqn:C; simpl;
    repeat split; intros; try lia; try congruence.
  all: thresholds; exfalso; Lqa.lra.
Qed.

Lemma autoAdjust_one_level_up_witness :
  performanceMode high_at_10 <> auto
  /\ performanceMode (autoAdjustPerformance high_at_10) = low.
Proof.
  split; [discriminate |].
  apply (autoAdjust_one_level_up high_at_10); [discriminate | reflexivity].
Defined.

(** ** Subscriptions *)

Lemma callbacks_unsubscribe (cb : fn_ref) (s : PerformanceService) :
  callbacks (unsubscribe cb s) =
  match indexOf cb (callbacks s) with
  | Some i => splice1 i (callbacks s)
  | None => callbacks s
  end.
Proof. unfold unsubscribe. now destruct (indexOf cb (callbacks s)). Qed.

(** [indexOf] finds the first occurrence: what [splice] then removes is
    that occurrence. *)
Lemma splice_indexOf (cb : fn_ref) (l : list fn_ref) :
  match indexOf cb l with
  | Some i =>
      exists before rest,
        l = before ++ cb :: rest /\ ~ In cb before
        /\ splice1 i l = before ++ rest
  | None => ~ In cb l
  end.
Proof.
  induction l as [| a l IH]; simpl; [tauto |].
  destruct (Nat.eqb_spec a cb) as [-> | Hne].
  - exists [], l. repeat split; auto.
  - destruct (indexOf cb l) as [i |].
    + destruct IH as (before & rest & -> & Hnot & Hs).
      exists (a :: before), rest. repeat split.
      * simpl. intros [E | I]; [congruence | auto].
      * unfold splice1 in *. rewrite firstn_cons, skipn_cons.
        cbn [app]. f_equal. exact Hs.
    + intros [E | I]; [congruence | auto].
Qed.

Lemma indexOf_none_iff (cb : fn_ref) (l : list fn_ref) :
  indexOf cb l = None <-> ~ In cb l.
Proof.
  pose proof (splice_indexOf cb l) as H.
  destruct (indexOf cb l); split; intros; try congruence; auto.
  destruct H as (b & r & -> & _). exfalso. apply H0.
  apply in_or_app. right. now left.
Qed.

Lemma count_occ_not_in_zero (cb : fn_ref) (l : list fn_ref) :
  ~ In cb l -> count_occ Nat.eq_dec l cb = 0%nat.
Proof. apply count_occ_not_In. Qed.

Lemma filter_others_skip (cb : fn_ref) (l : list fn_ref) :
  ~ In cb l -> filter (fun c => negb (Nat.eqb c cb)) l = l.
Proof.
  induction l as [| a l IH]; simpl; auto. intros H.
  destruct (Nat.eqb_spec a cb); simpl.
  - exfalso. apply H. now left.
  - rewrite IH; [reflexivity | tauto].
Qed.

(** C4, as stated, fails when the same function is subscribed twice: the
    second call of the first handle removes the second registration. *)
Lemma second_unsubscribe_removes_twin :
  let s1 := unsubscribe 7%nat subscribed_twice in
  let s2 := unsubscribe 7%nat s1 in
  callbacks subscribed_twice = [7; 7; 8]%nat
  /\ callbacks s1 = [7; 8]%nat
  /\ callbacks s2 = [8]%nat
  /\ s2 <> s1.
Proof. repeat split; try reflexivity. discriminate. Qed.

(** [indexOf] and [splice] on a list cut at the first occurrence. *)
Lemma splice_first_occurrence (cb : fn_ref) (before rest : list fn_ref) :
  ~ In cb before ->
  indexOf cb (before ++ cb :: rest) = Some (List.length before)
  /\ splice1 (List.length before) (before ++ cb :: rest) = before ++ rest.
Proof.
  intros Hnot. split.
  - induction before as [| a before IH]; simpl.
    + now rewrite Nat.eqb_refl.
    + destruct (Nat.eqb_spec a cb) as [E | _]; [exfalso; apply Hnot; now left |].
      rewrite IH; [reflexivity |]. intros I. apply Hnot. now right.
  - unfold splice1.
    rewrite firstn_app, Nat.sub_diag, firstn_all, firstn_O, app_nil_r.
    rewrite skipn_app, skipn_all2, Nat.sub_succ_l, Nat.sub_diag by lia.
    reflexivity.
Qed.

(** C4, amended: a call of the handle of [cb] removes the earliest
    registration of [cb] that is left and nothing else: the registrations
    before it and after it stay, in order; when [cb] is not registered the
    call changes nothing; the registrations of other functions are never
    touched; when [cb] is registered once, the first call removes exactly
    that registration and the second call changes nothing. *)
Theorem unsubscribe_once_registered (cb : fn_ref) (s : PerformanceService) :
  let s1 := unsubscribe cb s in
  let others := filter (fun c => negb (Nat.eqb c cb)) in
  (forall before rest,
     callbacks s = before ++ cb :: rest -> ~ In cb before ->
     callbacks s1 = before ++ rest)
  /\ (~ In cb (callbacks s) -> s1 = s)
  /\ others (callbacks s1) = others (callbacks s)
  /\ count_occ Nat.eq_dec (callbacks s1) cb
     = Nat.pred (count_occ Nat.eq_dec (callbacks s) cb)
  /\ (count_occ Nat.eq_dec (callbacks s) cb = 1%nat ->
      callbacks s1 = others (callbacks s) /\ unsubscribe cb s1 = s1).
Proof.
  cbv zeta. split; [| split].
  { intros before rest Hl Hnot. rewrite callbacks_unsubscribe, Hl.
    destruct (splice_first_occurrence cb before rest Hnot) as [Hi Hs].
    now rewrite Hi, Hs. }
  { intros Hnot. apply indexOf_none_iff in Hnot.
    unfold unsubscribe. now rewrite Hnot. }
  rewrite callbacks_unsubscribe.
  pose proof (splice_indexOf cb (callbacks s)) as H.
  destruct (indexOf cb (callbacks s)) as [i |] eqn:E.
  - destruct H as (before & rest & Hl & Hnot & Hs). rewrite Hs, Hl.
    rewrite !filter_app, !count_occ_app. simpl.
    rewrite Nat.eqb_refl. simpl.
    destruct (Nat.eq_dec cb cb) as [_ | N]; [| congruence].
    rewrite (count_occ_not_in_zero _ _ Hnot). simpl.
    split; [reflexivity | split; [reflexivity |]].
    intros Hc. injection Hc as Hc.
    apply (count_occ_not_In Nat.eq_dec) in Hc. split.
    + now rewrite !filter_others_skip.
    + assert (Hn : indexOf cb (callbacks (unsubscribe cb s)) = None).
      { apply indexOf_none_iff. rewrite callbacks_unsubscribe, E, Hs.
        intros I. apply in_app_or in I. tauto. }
      unfold unsubscribe at 1. now rewrite Hn.
  - rewrite (count_occ_not_in_zero _ _ H).
    split; [reflexivity | split; [reflexivity | discriminate]].
Qed.

Lemma unsubscribe_once_registered_witness :
  callbacks subscribed_around = [7; 8; 7]%nat
  /\ callbacks (unsubscribe 7%nat subscribed_around) = [8; 7]%nat
  /\ count_occ Nat.eq_dec (callbacks subscribed_twice) 8%nat = 1%nat
  /\ callbacks (unsubscribe 8%nat subscribed_twice) = [7; 7]%nat
  /\ unsubscribe 8%nat (unsubscribe 8%nat subscribed_twice)
     = unsubscribe 8%nat subscribed_twice.
Proof.
  split; [reflexivity |]. split.
  - apply (proj1 (unsubscribe_once_registered 7%nat subscribed_around)
             [] [8; 7]%nat); [reflexivity | intros []].
  - split; [reflexivity |].
    apply (unsubscribe_once_registered 8%nat subscribed_twice). reflexivity.
Defined.

(** ** The FPS history *)

Lemma fpsHistory_update (v : Q) (s : PerformanceService) :
  fpsHistory (updateFPSHistory v s) =
  let pushed := fpsHistory s ++ [v] in
  if (30 <? List.length pushed)%nat then tl pushed else pushed.
Proof.
  unfold updateFPSHistory. cbv zeta.
  now destruct (30 <? List.length (fpsHistory s ++ [v]))%nat.
Qed.

Lemma update_keeps_bound (v : Q) (s : PerformanceService) :
  (List.length (fpsHistory s) <= 30)%nat ->
  (List.length (fpsHistory (updateFPSHistory v s)) <= 30)%nat.
Proof.
  intros H. rewrite fpsHistory_update. cbv zeta.
  destruct (Nat.ltb_spec 30 (List.length (fpsHistory s ++ [v]))) as [L | L];
    [| exact L].
  rewrite length_app in L. simpl in L.
  destruct (fpsHistory s) as [| a h]; simpl in *; [lia |].
  rewrite length_app. simpl. lia.
Qed.

Lemma autoAdjust_history (s : PerformanceService) :
  fpsHistory (autoAdjustPerformance s) = fpsHistory s.
Proof.
  unfold autoAdjustPerformance.
  repeat match goal with |- context [if ?b then _ else _] => destruct b end;
    reflexivity.
Qed.

Lemma monitor_keeps_bound throws (h : host) (s : PerformanceService) :
  (List.length (fpsHistory s) <= 30)%nat ->
  (List.length (fpsHistory (after (monitor throws h s))) <= 30)%nat.
Proof.
  intros H. unfold monitor.
  destruct (S (frameCount s) mod 60 =? 0)%nat; [| exact H].
  match goal with
  | |- context [forEach throws ?c ?m] => destruct (forEach throws c m) as [calls []]
  end; simpl after;
    match goal with
    | |- context [if ?b then _ else _] => destruct b
    end; simpl; rewrite ?autoAdjust_history;
    apply update_keeps_bound; exact H.
Qed.

Lemma step_keeps_bound throws (s : PerformanceService) (c : call) :
  (List.length (fpsHistory s) <= 30)%nat ->
  (List.length (fpsHistory (step throws s c)) <= 30)%nat.
Proof.
  intros H. destruct c; simpl; auto using monitor_keeps_bound.
  - unfold unsubscribe. now destruct (indexOf cb (callbacks s)).
  - unfold stopMonitoring. now destruct (animationFrameId s).
Qed.

Lemma tl_skipn (k : nat) (l : list Q) : tl (skipn k l) = skipn (S k) l.
Proof.
  revert l. induction k as [| k IH]; intros [| a l]; simpl; auto.
Qed.

(** Pushing the samples [vs] one by one leaves the last 30 of them. *)
Lemma pushes_keep_latest (vs : list Q) (s : PerformanceService) :
  fpsHistory s = [] ->
  fpsHistory (fold_left (fun acc v => updateFPSHistory v acc) vs s)
  = skipn (List.length vs - 30) vs.
Proof.
  intros Hs. induction vs as [| v vs IH] using rev_ind; [exact Hs |].
  rewrite fold_left_app. simpl. rewrite fpsHistory_update, IH. cbv zeta.
  rewrite !length_app, length_skipn. simpl.
  destruct (Nat.ltb_spec 30 (List.length vs - (List.length vs - 30) + 1)) as [L | L].
  - rewrite skipn_app.
    replace (List.length vs + 1 - 30)%nat with (S (List.length vs - 30)) by lia.
    replace (S (List.length vs - 30) - List.length vs)%nat with 0%nat by lia.
    simpl skipn at 3. rewrite <- tl_skipn.
    destruct (skipn (List.length vs - 30) vs) eqn:E; [| reflexivity].
    apply (f_equal (@List.length Q)) in E. rewrite length_skipn in E.
    simpl in E. lia.
  - rewrite skipn_app.
    replace (List.length vs + 1 - 30)%nat with 0%nat by lia.
    replace (List.length vs - 30)%nat with 0%nat by lia.
    reflexivity.
Qed.

Lemma fold_left_sum (l : list Q) (a : Q) :
  fold_left Qplus l a == a + fold_right Qplus 0 l.
Proof.
  revert a. induction l as [| v l IH]; intros a; simpl.
  - ring.
  - rewrite IH. ring.
Qed.

(** C8: the history never holds more than 30 samples, whatever frames and
    calls the service has seen; pushing evicts the oldest samples first;
    and [getAverageFPS] is the arithmetic mean of the history, or the last
    instantaneous value when the history is empty. *)
Theorem fps_history_window throws (cs : list call) (vs : list Q)
    (t0 t1 : Q) (raf : nat) (s : PerformanceService) :
  (List.length (fpsHistory (run throws cs (constructor t0 t1 raf))) <= 30)%nat
  /\ fpsHistory
       (fold_left (fun acc v => updateFPSHistory v acc) vs (constructor t0 t1 raf))
     = skipn (List.length vs - 30) vs
  /\ getAverageFPS s
     == match fpsHistory s with
        | [] => fps s
        | _ => mean (fpsHistory s)
        end.
Proof.
  split; [| split].
  - unfold run. rewrite <- fold_left_rev_right.
    induction (rev cs) as [| c l IH]; simpl; [lia |].
    now apply step_keeps_bound.
  - now apply pushes_keep_latest.
  - unfold getAverageFPS, mean.
    destruct (fpsHistory s) as [| a h]; [reflexivity |].
    rewrite fold_left_sum. apply Qdiv_comp; [ring | reflexivity].
Qed.

(** ** The sampling window *)

Lemma succ_mod_60 (n : nat) :
  (n mod 60 = 59 -> S n mod 60 = 0)%nat
  /\ (n mod 60 < 59 -> S n mod 60 = n mod 60 + 1)%nat.
Proof.
  pose proof (Nat.div_mod_eq n 60) as D.
  pose proof (Nat.mod_upper_bound n 60 ltac:(lia)) as B.
  split; intros H.
  - symmetry. apply (Nat.mod_unique (S n) 60 (S (n / 60)) 0); lia.
  - symmetry. apply (Nat.mod_unique (S n) 60 (n / 60) (n mod 60 + 1)); lia.
Qed.

Lemma fps_autoAdjust (s : PerformanceService) :
  fps (autoAdjustPerformance s) = fps s.
Proof.
  unfold autoAdjustPerformance.
  repeat match goal with |- context [if ?b then _ else _] => destruct b end;
    reflexivity.
Qed.

Lemma fps_update (v : Q) (s : PerformanceService) :
  fps (updateFPSHistory v s) = fps s.
Proof.
  unfold updateFPSHistory. cbv zeta.
  now destruct (30 <? List.length (fpsHistory s ++ [v]))%nat.
Qed.

(** A frame that does not close the window only counts and keeps time. *)
Lemma monitor_inside_window throws (h : host) (s : PerformanceService) :
  (S (frameCount s) mod 60 <> 0)%nat ->
  monitor throws h s =
  mkFrame
    (mkService (S (frameCount s)) (now h) (fpsCalculationStartTime s) (fps s)
       (now h - lastTime s) (fpsHistory s) (performanceMode s) (targetFPS s)
       (callbacks s) (Some (rafHandle h)))
    [] Normal.
Proof.
  intros H. unfold monitor.
  destruct (Nat.eqb_spec (S (frameCount s) mod 60) 0); [contradiction | reflexivity].
Qed.

(** The frame that closes the window computes the new rate from the time
    since the window started. *)
Lemma monitor_closing_fps throws (h : host) (s : PerformanceService) :
  (S (frameCount s) mod 60 = 0)%nat ->
  fps (after (monitor throws h s))
  = 60 * 1000 / (now h - fpsCalculationStartTime s).
Proof.
  intros H. unfold monitor. rewrite H. simpl Nat.eqb. cbv iota.
  match goal with
  | |- context [forEach throws ?c ?m] => destruct (forEach throws c m) as [calls []]
  end; simpl after;
    match goal with
    | |- context [if ?b then _ else _] => destruct b
    end; simpl fps; rewrite ?fps_autoAdjust, ?fps_update; reflexivity.
Qed.

(** From anywhere inside a window, the frames that remain up to its close
    leave the rate computed over the whole window. *)
Lemma run_to_window_close throws (hs : list host) (s : PerformanceService) :
  hs <> [] ->
  (frameCount s mod 60 + List.length hs = 60)%nat ->
  fps (run_frames throws hs s)
  = 60 * 1000 / (last (map now hs) 0 - fpsCalculationStartTime s).
Proof.
  revert s. induction hs as [| h hs IH]; intros s Hne Hlen; [congruence |].
  destruct (succ_mod_60 (frameCount s)) as [Hclose Hopen].
  destruct hs as [| h2 hs].
  - simpl List.length in Hlen. simpl run_frames.
    assert (E : fps (after (monitor throws h s))
                = 60 * 1000 / (now h - fpsCalculationStartTime s))
      by (apply monitor_closing_fps, Hclose; lia).
    simpl map. simpl last.
    now destruct (outcome (monitor throws h s)).
  - simpl List.length in Hlen.
    assert (Hin : (S (frameCount s) mod 60 <> 0)%nat) by (rewrite Hopen; lia).
    change (run_frames throws (h :: h2 :: hs) s)
      with (match outcome (monitor throws h s) with
            | Normal => run_frames throws (h2 :: hs) (after (monitor throws h s))
            | Throw => after (monitor throws h s)
            end).
    rewrite (monitor_inside_window throws h s Hin). cbn [outcome after].
    rewrite IH; [reflexivity | discriminate |].
    simpl frameCount. rewrite Hopen by lia. simpl List.length in *. lia.
Qed.

Lemma last_steady_frame (t0 T : Q) (n : nat) :
  last (map now (steady_frames t0 T (S n))) 0
  = t0 + inject_Z (Z.of_nat (S n)) * T.
Proof.
  unfold steady_frames. rewrite seq_S, !map_app. cbn [map].
  rewrite last_last. reflexivity.
Qed.

(** C5: from the start of a window, 60 frames [T] ms apart leave the
    instantaneous rate [60000 / (60 * T)]; and for any 60 frames the rate
    is 60000 divided by the milliseconds between the start of the window
    and the last of them. *)
Theorem window_close_fps throws (s : PerformanceService) (T : Q)
    (hs : list host) :
  (frameCount s mod 60 = 0)%nat ->
  0 < T ->
  List.length hs = 60%nat ->
  fpsCalculationStartTime s < last (map now hs) 0 ->
  fps (run_frames throws (steady_frames (fpsCalculationStartTime s) T 60) s)
  == 60000 / (60 * T)
  /\ fps (run_frames throws hs s)
     == 60000 / (last (map now hs) 0 - fpsCalculationStartTime s).
Proof.
  intros Hstart HT Hlen Hpos. split.
  - rewrite run_to_window_close.
    + rewrite last_steady_frame. apply Qdiv_comp; [reflexivity |].
      change (inject_Z (Z.of_nat 60)) with 60. ring.
    + discriminate.
    + rewrite Hstart. unfold steady_frames. now rewrite length_map, length_seq.
  - rewrite run_to_window_close.
    + reflexivity.
    + intros ->. discriminate.
    + rewrite Hstart, Hlen. reflexivity.
Qed.

Lemma window_close_fps_witness :
  fps (run_frames well_behaved (steady_frames 0 16.67 60) (constructor 0 0 0))
  == 60000 / (60 * 16.67).
Proof.
  apply (window_close_fps well_behaved (constructor 0 0 0) 16.67
           (steady_frames 0 16.67 60)); reflexivity.
Defined.

(** ** Automatic switching *)

Lemma mode_update (v : Q) (s : PerformanceService) :
  performanceMode (updateFPSHistory v s) = performanceMode s.
Proof.
  unfold updateFPSHistory. cbv zeta.
  now destruct (30 <? List.length (fpsHistory s ++ [v]))%nat.
Qed.

(** Once the stored mode is not [auto], a frame never changes it: the
    threshold table is not evaluated any more. *)
Lemma monitor_keeps_pinned_mode throws (h : host) (s : PerformanceService) :
  performanceMode s <> auto ->
  performanceMode (after (monitor throws h s)) = performanceMode s.
Proof.
  intros Hm. unfold monitor.
  destruct (S (frameCount s) mod 60 =? 0)%nat; [| reflexivity].
  match goal with
  | |- context [forEach throws ?c ?m] => destruct (forEach throws c m) as [calls []]
  end; simpl after;
    rewrite mode_update; simpl performanceMode;
    destruct (mode_eqb_spec (performanceMode s) auto); try contradiction;
    simpl; now rewrite mode_update.
Qed.

(** Inside [monitor] the table is entered with the mode [auto] only, so
    its single reachable row is the first one: the outcome is [low] or
    no change. *)
Lemma monitor_from_auto throws (h : host) (s : PerformanceService) :
  performanceMode s = auto ->
  performanceMode (after (monitor throws h s)) = auto
  \/ performanceMode (after (monitor throws h s)) = low.
Proof.
  intros Hm. unfold monitor.
  destruct (S (frameCount s) mod 60 =? 0)%nat; [| now left].
  match goal with
  | |- context [forEach throws ?c ?m] => destruct (forEach throws c m) as [calls []]
  end; simpl after;
    rewrite mode_update; simpl performanceMode; rewrite Hm; simpl.
  all: rewrite autoAdjust_mode, mode_update; simpl performanceMode.
  all: cbv zeta;
    match goal with |- context [if ?b then _ else _] => destruct b end; auto.
Qed.

(** C1 fails on the code: in mode [auto], a slow window makes the governor
    store [low] in the mode field itself; from then on the mode is not
    [auto], the table is not evaluated, and a fast window with average 60
    leaves the tier at [low] although the table would raise it. *)
Theorem auto_mode_lost_after_own_switch :
  performanceMode (setPerformanceMode auto (constructor 0 0 0)) = auto
  /\ performanceMode after_slow_window = low
  /\ getAverageFPS after_fast_window == 60
  /\ performanceMode after_fast_window = low
  /\ performanceMode (autoAdjustPerformance after_fast_window) = medium.
Proof. repeat split; vm_compute; reflexivity. Qed.

(** ** Notification of the subscribers *)

Lemma forEach_all_return throws (l : list fn_ref) (m : PerformanceMetrics) :
  (forall b, In b l -> throws b m = false) ->
  forEach throws l m = (map (fun c => (c, m)) l, Normal).
Proof.
  induction l as [| a l IH]; intros H; simpl; [reflexivity |].
  rewrite (H a) by now left.
  rewrite IH; [reflexivity |]. intros b Hb. apply H. now right.
Qed.

(** At a window close the service is updated before anybody is told: the
    state [s3] that the subscribers see does not depend on them. *)
Lemma monitor_closing (h : host) (s : PerformanceService) :
  (S (frameCount s) mod 60 = 0)%nat ->
  exists s3,
    callbacks s3 = callbacks s
    /\ animationFrameId s3 = animationFrameId s
    /\ forall throws,
         monitor throws h s =
         match forEach throws (callbacks s3) (snapshot h s3) with
         | (calls, Normal) =>
             mkFrame (set_animationFrameId (Some (rafHandle h)) s3) calls Normal
         | (calls, Throw) => mkFrame s3 calls Throw
         end.
Proof.
  intros H. unfold monitor. rewrite H. simpl Nat.eqb. cbv iota zeta.
  eexists. split; [| split; [| intros throws; reflexivity]].
  - match goal with |- context [if ?b then _ else _] => destruct b end;
      unfold autoAdjustPerformance, updateFPSHistory; cbv zeta;
      repeat match goal with |- context [if ?b then _ else _] => destruct b end;
      reflexivity.
  - match goal with |- context [if ?b then _ else _] => destruct b end;
      unfold autoAdjustPerformance, updateFPSHistory; cbv zeta;
      repeat match goal with |- context [if ?b then _ else _] => destruct b end;
      reflexivity.
Qed.

(** ** Notification with subscribers that call back *)

(** The service at the moment the subscribers are told, for both ways of
    modelling them. *)
Lemma window_close_state (h : host) (s : PerformanceService) :
  (S (frameCount s) mod 60 = 0)%nat ->
  exists s3,
    callbacks s3 = callbacks s
    /\ animationFrameId s3 = animationFrameId s
    /\ (forall throws,
          monitor throws h s =
          match forEach throws (callbacks s3) (snapshot h s3) with
          | (calls, Normal) =>
              mkFrame (set_animationFrameId (Some (rafHandle h)) s3) calls
                Normal
          | (calls, Throw) => mkFrame s3 calls Throw
          end)
    /\ (forall b n,
          monitor_live b n h s =
          match
            forEach_live b n (List.length (callbacks s3)) 0 (snapshot h s3) s3
          with
          | (s4, calls, Normal) =>
              mkFrame (set_animationFrameId (Some (rafHandle h)) s4) calls
                Normal
          | (s4, calls, Throw) => mkFrame s4 calls Throw
          end).
Proof.
  intros H. unfold monitor, monitor_live. rewrite H. simpl Nat.eqb.
  cbv iota zeta.
  eexists. split; [| split; [| split; intros; reflexivity]].
  - match goal with |- context [if ?b then _ else _] => destruct b end;
      unfold autoAdjustPerformance, updateFPSHistory; cbv zeta;
      repeat match goal with |- context [if ?b then _ else _] => destruct b end;
      reflexivity.
  - match goal with |- context [if ?b then _ else _] => destruct b end;
      unfold autoAdjustPerformance, updateFPSHistory; cbv zeta;
      repeat match goal with |- context [if ?b then _ else _] => destruct b end;
      reflexivity.
Qed.

Lemma monitor_live_inside_window (b : behaviour) (n : nat) (h : host)
    (s : PerformanceService) :
  (S (frameCount s) mod 60 <> 0)%nat ->
  forall throws, monitor_live b n h s = monitor throws h s.
Proof.
  intros H throws. unfold monitor_live, monitor.
  destruct (Nat.eqb_spec (S (frameCount s) mod 60) 0);
    [contradiction | reflexivity].
Qed.

Lemma skipn_at (l : list fn_ref) (k : nat) (a : fn_ref) :
  nth_error l k = Some a -> skipn k l = a :: skipn (S k) l.
Proof.
  revert k. induction l as [| x l IH]; intros [| k] H; try discriminate.
  - now injection H as ->.
  - simpl in H. change (skipn (S k) (x :: l)) with (skipn k l).
    now rewrite (IH k H).
Qed.

(** With subscribers that only look, walking the live array is walking
    the list as it was. *)
Lemma forEach_live_observers (b : behaviour) throws (len n k : nat)
    (m : PerformanceMetrics) (s : PerformanceService) :
  (forall cb, In cb (callbacks s) ->
     forall n' m' s', b n' cb m' s' = observer throws n' cb m' s') ->
  forEach_live b n len k m s
  = (s, fst (forEach throws (firstn len (skipn k (callbacks s))) m),
     snd (forEach throws (firstn len (skipn k (callbacks s))) m)).
Proof.
  intros Hb. revert n k. induction len as [| len IH]; intros n k;
    [reflexivity |].
  cbn [forEach_live].
  destruct (nth_error (callbacks s) k) as [cb |] eqn:E.
  - rewrite (Hb cb (nth_error_In _ _ E)). unfold observer.
    cbn [calls_made metrics_left ending fold_left].
    rewrite (skipn_at _ _ _ E). cbn [firstn forEach].
    destruct (throws cb m); [reflexivity |].
    rewrite IH.
    now destruct (forEach throws (firstn len (skipn (S k) (callbacks s))) m).
  - apply nth_error_None in E. rewrite IH.
    rewrite (skipn_all2 (callbacks s)) by lia.
    rewrite (skipn_all2 (callbacks s)) by exact E.
    now rewrite !firstn_nil.
Qed.

(** The earlier model of the subscribers is the case of subscribers that
    only look. *)
Lemma monitor_live_observers (b : behaviour) throws (n : nat) (h : host)
    (s : PerformanceService) :
  (forall cb, In cb (callbacks s) ->
     forall n' m' s', b n' cb m' s' = observer throws n' cb m' s') ->
  monitor_live b n h s = monitor throws h s.
Proof.
  intros Hb.
  destruct (Nat.eq_dec (S (frameCount s) mod 60) 0) as [E | N];
    [| now apply monitor_live_inside_window].
  destruct (window_close_state h s E) as (s3 & Hc & _ & Hold & Hlive).
  rewrite Hlive, (Hold throws).
  rewrite (forEach_live_observers b throws)
    by (intros cb Hcb; apply Hb; now rewrite <- Hc).
  cbn [skipn]. rewrite firstn_all.
  now destruct (forEach throws (callbacks s3) (snapshot h s3)) as [calls []].
Qed.

(** As long as the subscribers called so far only look, the first one
    that throws ends the walk. *)
Lemma forEach_live_until_fault (b : behaviour) (m : PerformanceMetrics)
    (s : PerformanceService) (before rest : list fn_ref) (cb : fn_ref) :
  (forall x n', In x before -> b n' x m s = mkReaction [] m Normal) ->
  (forall n', b n' cb m s = mkReaction [] m Throw) ->
  forall (pre : list fn_ref) (n len : nat),
    callbacks s = pre ++ before ++ cb :: rest ->
    (List.length before < len)%nat ->
    forEach_live b n len (List.length pre) m s
    = (s, map (fun c => (c, m)) (before ++ [cb]), Throw).
Proof.
  intros Hbefore Hcb. induction before as [| x before IH];
    intros pre n len Hl Hlen.
  - destruct len as [| len]; [simpl in Hlen; lia |]. cbn [forEach_live].
    assert (E : nth_error (callbacks s) (List.length pre) = Some cb)
      by (rewrite Hl, nth_error_app2, Nat.sub_diag by lia; reflexivity).
    rewrite E, Hcb. reflexivity.
  - destruct len as [| len]; [simpl in Hlen; lia |]. cbn [forEach_live].
    assert (E : nth_error (callbacks s) (List.length pre) = Some x)
      by (rewrite Hl, nth_error_app2, Nat.sub_diag by lia; reflexivity).
    rewrite E, (Hbefore x n (or_introl eq_refl)).
    cbn [calls_made metrics_left ending fold_left].
    replace (S (List.length pre)) with (List.length (pre ++ [x]))
      by (rewrite length_app; simpl; lia).
    rewrite (IH (fun y n' Hy => Hbefore y n' (or_intror Hy)) (pre ++ [x])).
    + reflexivity.
    + rewrite Hl, <- app_assoc. reflexivity.
    + simpl in Hlen. lia.
Qed.

Lemma invoke_keeps_samples (s : PerformanceService) (c : method) :
  fps (invoke s c) = fps s /\ fpsHistory (invoke s c) = fpsHistory s.
Proof.
  destruct c; simpl; auto.
  - unfold unsubscribe. now destruct (indexOf cb (callbacks s)).
  - unfold stopMonitoring. now destruct (animationFrameId s).
Qed.

Lemma calls_keep_samples (cs : list method) (s : PerformanceService) :
  fps (fold_left invoke cs s) = fps s
  /\ fpsHistory (fold_left invoke cs s) = fpsHistory s.
Proof.
  revert s. induction cs as [| c cs IH]; intros s; [now split |].
  cbn [fold_left]. destruct (IH (invoke s c)) as [H1 H2].
  destruct (invoke_keeps_samples s c) as [H3 H4]. split; congruence.
Qed.

(** No public method writes the rate or the history: whatever the
    subscribers do, both come out of the walk as they went in. *)
Lemma forEach_live_keeps_samples (b : behaviour) (len n k : nat)
    (m : PerformanceMetrics) (s : PerformanceService) :
  fps (fst (fst (forEach_live b n len k m s))) = fps s
  /\ fpsHistory (fst (fst (forEach_live b n len k m s))) = fpsHistory s.
Proof.
  revert n k m s. induction len as [| len IH]; intros n k m s;
    [now split |].
  cbn [forEach_live]. destruct (nth_error (callbacks s) k) as [cb |];
    [| apply IH].
  destruct (calls_keep_samples (calls_made (b n cb m s)) s) as [H1 H2].
  destruct (ending (b n cb m s)); [| now split].
  specialize (IH (S n) (S k) (metrics_left (b n cb m s))
                (fold_left invoke (calls_made (b n cb m s)) s)).
  destruct (forEach_live b (S n) len (S k) _ _) as [[s'' calls] c].
  cbn [fst] in *. destruct IH as [H3 H4]. split; congruence.
Qed.

Lemma monitor_live_keeps_samples (b b' : behaviour) (n n' : nat) (h : host)
    (s : PerformanceService) :
  fps (after (monitor_live b n h s)) = fps (after (monitor_live b' n' h s))
  /\ fpsHistory (after (monitor_live b n h s))
     = fpsHistory (after (monitor_live b' n' h s)).
Proof.
  destruct (Nat.eq_dec (S (frameCount s) mod 60) 0) as [E | N].
  - destruct (window_close_state h s E) as (s3 & _ & _ & _ & Hlive).
    rewrite !Hlive.
    pose proof (forEach_live_keeps_samples b (List.length (callbacks s3)) n 0
                  (snapshot h s3) s3) as [A1 A2].
    pose proof (forEach_live_keeps_samples b' (List.length (callbacks s3)) n' 0
                  (snapshot h s3) s3) as [B1 B2].
    destruct (forEach_live b n _ 0 _ s3) as [[s4 calls] []];
      destruct (forEach_live b' n' _ 0 _ s3) as [[s4' calls'] []];
      cbn [fst after fps fpsHistory set_animationFrameId] in *;
      split; congruence.
  - now rewrite (monitor_live_inside_window b n h s N well_behaved),
      (monitor_live_inside_window b' n' h s N well_behaved).
Qed.

(** C3, as stated, fails: subscriber [1] throws and subscriber [2],
    registered after it, is not called at the window close. *)
Lemma later_subscriber_not_called :
  let r := monitor_live (observer first_faulty) 0 closing_host
             two_subscribers in
  callbacks two_subscribers = [1; 2]%nat
  /\ map fst (invoked r) = [1]%nat
  /\ outcome r = Throw
  /\ ~ In 2%nat (map fst (invoked r)).
Proof.
  repeat split; try reflexivity.
  vm_compute. intros [E | []]. discriminate.
Qed.

(** A subscriber need not throw to keep another one from being called:
    when subscriber [1] takes itself off the list and returns, the walk
    goes on at index 1 of a list that has one element left, and
    subscriber [2] is skipped. *)
Lemma self_unsubscribe_skips_next :
  let r := monitor_live self_unsubscribing 0 closing_host two_subscribers in
  map fst (invoked r) = [1]%nat
  /\ outcome r = Normal
  /\ callbacks (after r) = [2]%nat.
Proof. repeat split; reflexivity. Qed.

(** C3, amended: when a subscriber throws at a window close, and neither
    it nor the subscribers registered before it call a method of the
    service or change the snapshot while they are notified, then those
    subscribers and the faulting one have been called with the new
    snapshot, the subscribers registered after it are not called, the
    exception leaves [monitor] before the next frame is requested, and the
    mode and the subscriber list are what they are when every subscriber
    only looks and returns, in which case all of them are called.  The
    current FPS and the history are the ones of the window close whatever
    the subscribers do. *)
Theorem fault_ends_notification (b : behaviour) (n : nat) (h : host)
    (s : PerformanceService) (before rest : list fn_ref) (cb : fn_ref) :
  let r := monitor_live b n h s in
  let r' := monitor_live (observer well_behaved) n h s in
  let m := snapshot h (after r') in
  (S (frameCount s) mod 60 = 0)%nat ->
  callbacks s = before ++ cb :: rest ->
  (forall x n' s', In x before -> b n' x m s' = mkReaction [] m Normal) ->
  (forall n' s', b n' cb m s' = mkReaction [] m Throw) ->
  invoked r = map (fun c => (c, m)) (before ++ [cb])
  /\ outcome r = Throw
  /\ animationFrameId (after r) = animationFrameId s
  /\ performanceMode (after r) = performanceMode (after r')
  /\ callbacks (after r) = callbacks (after r')
  /\ invoked r' = map (fun c => (c, m)) (callbacks s)
  /\ outcome r' = Normal
  /\ forall (b' : behaviour) (n' : nat),
       fps (after (monitor_live b' n' h s)) = fps (after r')
       /\ fpsHistory (after (monitor_live b' n' h s)) = fpsHistory (after r').
Proof.
  intros r r' m Hclose Hcbs Hbefore Hcb. subst r r' m.
  destruct (window_close_state h s Hclose) as (s3 & Hc & Ha & _ & Hlive).
  pose proof (fun b' n' =>
                monitor_live_keeps_samples b' (observer well_behaved) n' n h s)
    as Hsamples.
  assert (Hquiet : monitor_live (observer well_behaved) n h s
                   = mkFrame (set_animationFrameId (Some (rafHandle h)) s3)
                       (map (fun c => (c, snapshot h s3)) (callbacks s3))
                       Normal).
  { rewrite Hlive.
    rewrite (forEach_live_observers (observer well_behaved) well_behaved)
      by reflexivity.
    cbn [skipn]. rewrite firstn_all.
    rewrite (forEach_all_return well_behaved) by reflexivity. reflexivity. }
  rewrite Hquiet in *. cbn [after invoked outcome] in *.
  change (snapshot h (set_animationFrameId (Some (rafHandle h)) s3))
    with (snapshot h s3) in *.
  assert (Hfault : monitor_live b n h s
                   = mkFrame s3
                       (map (fun c => (c, snapshot h s3)) (before ++ [cb]))
                       Throw).
  { rewrite Hlive.
    pose proof (forEach_live_until_fault b (snapshot h s3) s3 before rest cb
                  (fun x n' Hx => Hbefore x n' s3 Hx) (fun n' => Hcb n' s3)
                  [] n (List.length (callbacks s3))) as F.
    cbn [List.length app] in F. rewrite F; [reflexivity | |].
    - rewrite Hc. exact Hcbs.
    - rewrite Hc, Hcbs, length_app. simpl. lia. }
  rewrite Hfault. cbn [after invoked outcome].
  split; [reflexivity |]. split; [reflexivity |]. split; [exact Ha |].
  split; [reflexivity |]. split; [reflexivity |].
  split; [now rewrite Hc |]. split; [reflexivity |].
  exact Hsamples.
Qed.

Lemma fault_ends_notification_witness :
  map fst
    (invoked
       (monitor_live (observer first_faulty) 0 closing_host two_subscribers))
  = [1]%nat
  /\ outcome
       (monitor_live (observer first_faulty) 0 closing_host two_subscribers)
     = Throw.
Proof.
  destruct (fault_ends_notification (observer first_faulty) 0 closing_host
              two_subscribers [] [2%nat] 1%nat) as (Hi & Ho & _).
  - reflexivity.
  - reflexivity.
  - intros x n' s' [].
  - reflexivity.
  - split; [now rewrite Hi | exact Ho].
Defined.

(** ** Further facts: subscriptions, notification and pinned modes *)

Lemma indexOf_snoc_fresh (cb : fn_ref) (l : list fn_ref) :
  ~ In cb l -> indexOf cb (l ++ [cb]) = Some (List.length l).
Proof.
  induction l as [| a l IH]; simpl; intros H.
  - now rewrite Nat.eqb_refl.
  - destruct (Nat.eqb_spec a cb) as [E | _]; [exfalso; auto |].
    rewrite IH; [reflexivity | tauto].
Qed.

Lemma splice_last (cb : fn_ref) (l : list fn_ref) :
  splice1 (List.length l) (l ++ [cb]) = l.
Proof.
  unfold splice1.
  rewrite firstn_app, Nat.sub_diag, firstn_all, firstn_O, app_nil_r.
  rewrite skipn_all2 by (rewrite length_app; simpl; lia).
  apply app_nil_r.
Qed.

(** X1: subscribing a function that is not registered and calling the
    handle at once gives back the service as it was. *)
Theorem subscribe_unsubscribe_round_trip (cb : fn_ref)
    (s : PerformanceService) :
  ~ In cb (callbacks s) -> unsubscribe cb (subscribe cb s) = s.
Proof.
  intros H. unfold unsubscribe, subscribe. cbn [callbacks set_callbacks].
  rewrite (indexOf_snoc_fresh cb (callbacks s) H), splice_last.
  now destruct s.
Qed.

Lemma subscribe_unsubscribe_round_trip_witness :
  ~ In 9%nat (callbacks subscribed_twice)
  /\ unsubscribe 9%nat (subscribe 9%nat subscribed_twice) = subscribed_twice.
Proof.
  assert (H : ~ In 9%nat (callbacks subscribed_twice)).
  { simpl. intros [E | [E | [E | []]]]; discriminate. }
  split; [exact H |].
  exact (subscribe_unsubscribe_round_trip 9%nat subscribed_twice H).
Defined.

Lemma callbacks_monitor throws (h : host) (s : PerformanceService) :
  callbacks (after (monitor throws h s)) = callbacks s.
Proof.
  destruct (Nat.eq_dec (S (frameCount s) mod 60) 0) as [E | N].
  - destruct (monitor_closing h s E) as (s3 & Hc & _ & Hm).
    rewrite (Hm throws).
    destruct (forEach throws (callbacks s3) (snapshot h s3)) as [calls []];
      exact Hc.
  - now rewrite (monitor_inside_window throws h s N).
Qed.

Lemma run_trace_inner_frame throws (h : host) (hs : list host)
    (s : PerformanceService) :
  (S (frameCount s) mod 60 <> 0)%nat ->
  run_trace throws (h :: hs) s
  = run_trace throws hs (after (monitor throws h s))
  /\ run_frames throws (h :: hs) s
     = run_frames throws hs (after (monitor throws h s)).
Proof.
  intros Hin. cbn [run_trace run_frames].
  rewrite (monitor_inside_window throws h s Hin). split; reflexivity.
Qed.

(** Inside a window nobody is called. *)
Lemma run_trace_inside_window throws (hs : list host)
    (s : PerformanceService) :
  (frameCount s mod 60 + List.length hs < 60)%nat ->
  run_trace throws hs s = [].
Proof.
  revert s. induction hs as [| h hs IH]; intros s Hlen; [reflexivity |].
  destruct (succ_mod_60 (frameCount s)) as [_ Hopen].
  simpl List.length in Hlen.
  assert (Hin : (S (frameCount s) mod 60 <> 0)%nat) by (rewrite Hopen; lia).
  rewrite (proj1 (run_trace_inner_frame throws h hs s Hin)). apply IH.
  rewrite (monitor_inside_window throws h s Hin).
  cbn [after frameCount]. rewrite Hopen by lia. lia.
Qed.

(** The frames that remain up to the close of the window call every
    subscriber once, at the close. *)
Lemma run_trace_to_close throws (hs : list host) (s : PerformanceService) :
  hs <> [] ->
  (frameCount s mod 60 + List.length hs = 60)%nat ->
  (forall cb m, In cb (callbacks s) -> throws cb m = false) ->
  run_trace throws hs s
  = map (fun cb => (cb, snapshot (last hs no_host) (run_frames throws hs s)))
      (callbacks s).
Proof.
  revert s. induction hs as [| h hs IH]; intros s Hne Hlen Hok; [congruence |].
  destruct (succ_mod_60 (frameCount s)) as [Hclose Hopen].
  destruct hs as [| h2 hs].
  - simpl List.length in Hlen.
    assert (E : (S (frameCount s) mod 60 = 0)%nat) by (apply Hclose; lia).
    destruct (monitor_closing h s E) as (s3 & Hc & _ & Hm).
    cbn [run_trace run_frames last]. rewrite (Hm throws).
    rewrite (forEach_all_return throws)
      by (intros b Hb; apply Hok; now rewrite <- Hc).
    cbn [invoked outcome after]. rewrite app_nil_r, Hc. reflexivity.
  - simpl List.length in Hlen.
    assert (Hin : (S (frameCount s) mod 60 <> 0)%nat) by (rewrite Hopen; lia).
    change (last (h :: h2 :: hs) no_host) with (last (h2 :: hs) no_host).
    destruct (run_trace_inner_frame throws h (h2 :: hs) s Hin) as [Et Ef].
    rewrite Et, Ef.
    rewrite IH; [now rewrite callbacks_monitor | discriminate | |].
    + rewrite (monitor_inside_window throws h s Hin).
      cbn [after frameCount]. rewrite Hopen by lia. simpl List.length. lia.
    + intros cb m Hcb. apply Hok. now rewrite <- (callbacks_monitor throws h s).
Qed.

(** With subscribers that only look and return, the runs of the two
    models are the same. *)
Lemma run_live_passive (b : behaviour) (hs : list host) (n : nat)
    (s : PerformanceService) :
  (forall cb, In cb (callbacks s) ->
     forall n' m' s', b n' cb m' s' = mkReaction [] m' Normal) ->
  run_trace_live b n hs s = run_trace well_behaved hs s
  /\ run_frames_live b n hs s = run_frames well_behaved hs s.
Proof.
  revert n s. induction hs as [| h hs IH]; intros n s Hb; [now split |].
  cbn [run_trace_live run_frames_live run_trace run_frames].
  rewrite (monitor_live_observers b well_behaved n h s Hb).
  destruct (IH (n + List.length (invoked (monitor well_behaved h s)))%nat
              (after (monitor well_behaved h s))) as [Ht Hf].
  { intros cb Hcb. apply Hb. now rewrite <- (callbacks_monitor well_behaved h s). }
  rewrite Ht, Hf. split; reflexivity.
Qed.

(** X2: with subscribers that return normally, call no method of the
    service and leave the snapshot alone, the 60 frames of a window call
    every subscriber exactly once, in registration order, with the
    snapshot taken at the close; any shorter run from the start of the
    window calls nobody. *)
Theorem notified_once_per_window (b : behaviour) (n : nat) (hs : list host)
    (s : PerformanceService) :
  (frameCount s mod 60 = 0)%nat ->
  List.length hs = 60%nat ->
  (forall cb, In cb (callbacks s) ->
     forall n' m' s', b n' cb m' s' = mkReaction [] m' Normal) ->
  run_trace_live b n hs s
  = map
      (fun cb => (cb, snapshot (last hs no_host) (run_frames_live b n hs s)))
      (callbacks s)
  /\ forall k, (k < 60)%nat -> run_trace_live b n (firstn k hs) s = [].
Proof.
  intros Hstart Hlen Hb. split.
  - destruct (run_live_passive b hs n s Hb) as [Ht Hf]. rewrite Ht, Hf.
    apply run_trace_to_close; [intros -> ; discriminate | lia | reflexivity].
  - intros k Hk.
    rewrite (proj1 (run_live_passive b (firstn k hs) n s Hb)).
    apply run_trace_inside_window. rewrite Hstart, length_firstn. lia.
Qed.

Lemma notified_once_per_window_witness :
  map fst
    (run_trace_live (observer well_behaved) 0 (steady_frames 0 16.67 60)
       (subscribe 3%nat (constructor 0 0 0)))
  = [3%nat].
Proof.
  destruct (notified_once_per_window (observer well_behaved) 0
              (steady_frames 0 16.67 60)
              (subscribe 3%nat (constructor 0 0 0))) as [H _].
  - reflexivity.
  - reflexivity.
  - reflexivity.
  - rewrite H. reflexivity.
Defined.

Lemma step_keeps_pinned_mode throws (s : PerformanceService) (c : call) :
  sets_mode c = false ->
  performanceMode s <> auto ->
  performanceMode (step throws s c) = performanceMode s.
Proof.
  intros Hc Hm. destruct c; simpl in *; try discriminate; try reflexivity.
  - now apply monitor_keeps_pinned_mode.
  - unfold unsubscribe. now destruct (indexOf cb (callbacks s)).
  - unfold stopMonitoring. now destruct (animationFrameId s).
Qed.

Lemma run_keeps_pinned_mode throws (cs : list call)
    (s : PerformanceService) :
  forallb (fun c => negb (sets_mode c)) cs = true ->
  performanceMode s <> auto ->
  performanceMode (run throws cs s) = performanceMode s.
Proof.
  revert s. induction cs as [| c cs IH]; intros s Hcs Hm; [reflexivity |].
  simpl in Hcs. apply andb_prop in Hcs as [Hc Hcs].
  apply negb_true_iff in Hc.
  unfold run in *. cbn [fold_left].
  rewrite IH; [| exact Hcs | now rewrite step_keeps_pinned_mode].
  now apply step_keeps_pinned_mode.
Qed.

(** X3: once the stored mode is not [auto], no frame and no call other
    than [setPerformanceMode] changes it. *)
Theorem pinned_mode_is_stable throws (cs : list call)
    (s : PerformanceService) :
  forallb (fun c => negb (sets_mode c)) cs = true ->
  performanceMode s <> auto ->
  performanceMode (run throws cs s) = performanceMode s.
Proof. apply run_keeps_pinned_mode. Qed.

Lemma pinned_mode_is_stable_witness :
  performanceMode
    (run well_behaved
       (map Frame (steady_frames 1000 10 60) ++ [Subscribe 4%nat])
       high_at_10)
  = high.
Proof.
  apply (pinned_mode_is_stable well_behaved
           (map Frame (steady_frames 1000 10 60) ++ [Subscribe 4%nat])
           high_at_10).
  - reflexivity.
  - discriminate.
Defined.

(** X4: left to itself in mode [auto], the governor only ever keeps
    [auto] or stores [low]: it never selects [medium] or [high]. *)
Theorem auto_only_drops_to_low throws (cs : list call)
    (s : PerformanceService) :
  forallb (fun c => negb (sets_mode c)) cs = true ->
  performanceMode s = auto ->
  performanceMode (run throws cs s) = auto
  \/ performanceMode (run throws cs s) = low.
Proof.
  revert s. induction cs as [| c cs IH]; intros s Hcs Hm; [now left |].
  simpl in Hcs. apply andb_prop in Hcs as [Hc Hcs].
  apply negb_true_iff in Hc.
  unfold run in *. cbn [fold_left].
  assert (Hstep : performanceMode (step throws s c) = auto
                  \/ performanceMode (step throws s c) = low).
  { destruct c; simpl in *; try discriminate; auto.
    - now apply monitor_from_auto.
    - left. unfold unsubscribe. now destruct (indexOf cb (callbacks s)).
    - left. unfold stopMonitoring. now destruct (animationFrameId s). }
  destruct Hstep as [Ha | Hl]; [now apply IH |].
  right. change (fold_left (step throws) cs (step throws s c))
    with (run throws cs (step throws s c)).
  rewrite run_keeps_pinned_mode; [exact Hl | exact Hcs | congruence].
Qed.

Lemma auto_only_drops_to_low_witness :
  performanceMode
    (run well_behaved (map Frame (steady_frames 0 50 60)) (constructor 0 0 0))
  = auto
  \/ performanceMode
       (run well_behaved (map Frame (steady_frames 0 50 60))
          (constructor 0 0 0))
     = low.
Proof.
  apply (auto_only_drops_to_low well_behaved
           (map Frame (steady_frames 0 50 60)) (constructor 0 0 0));
    reflexivity.
Defined.

(** ** Further facts: the average *)

Lemma count_succ (n : nat) :
  inject_Z (Z.of_nat (S n)) == inject_Z (Z.of_nat n) + 1.
Proof. rewrite Nat2Z.inj_succ. unfold Z.succ. now rewrite inject_Z_plus. Qed.

Lemma count_nonneg (n : nat) : 0 <= inject_Z (Z.of_nat n).
Proof.
  change 0 with (inject_Z 0). rewrite <- Zle_Qle. apply Nat2Z.is_nonneg.
Qed.

Lemma sum_between (l : list Q) (lo hi : Q) :
  (forall v, In v l -> lo <= v <= hi) ->
  inject_Z (Z.of_nat (List.length l)) * lo <= fold_right Qplus 0 l
  /\ fold_right Qplus 0 l <= inject_Z (Z.of_nat (List.length l)) * hi.
Proof.
  induction l as [| a l IH]; intros H.
  - cbn [List.length fold_right]. change (inject_Z (Z.of_nat 0)) with 0.
    split; Lqa.lra.
  - destruct IH as [IHlo IHhi]; [intros v Hv; apply H; now right |].
    destruct (H a (or_introl eq_refl)) as [Ha1 Ha2].
    cbn [List.length fold_right]. rewrite count_succ.
    set (n := inject_Z (Z.of_nat (List.length l))) in *. clearbody n.
    set (t := fold_right Qplus 0 l) in *. clearbody t.
    split; Lqa.lra.
Qed.

(** X5: when the history is not empty, [getAverageFPS] lies between any
    two bounds that hold for every sample in the history. *)
Theorem average_between_bounds (s : PerformanceService) (lo hi : Q) :
  fpsHistory s <> [] ->
  (forall v, In v (fpsHistory s) -> lo <= v <= hi) ->
  lo <= getAverageFPS s <= hi.
Proof.
  intros Hne Hb. unfold getAverageFPS.
  destruct (fpsHistory s) as [| a h] eqn:E; [congruence |].
  destruct (sum_between (a :: h) lo hi Hb) as [Hlo Hhi].
  assert (Hn : 0 < inject_Z (Z.of_nat (List.length (a :: h)))).
  { cbn [List.length]. rewrite count_succ.
    pose proof (count_nonneg (List.length h)). Lqa.lra. }
  rewrite fold_left_sum.
  setoid_replace (0 + fold_right Qplus 0 (a :: h))
    with (fold_right Qplus 0 (a :: h)) by ring.
  split.
  - apply Qle_shift_div_l; [exact Hn |].
    now rewrite Qmult_comm.
  - apply Qle_shift_div_r; [exact Hn |].
    now rewrite Qmult_comm.
Qed.

Lemma average_between_bounds_witness :
  10 <= getAverageFPS high_at_10 <= 10.
Proof.
  apply (average_between_bounds high_at_10 10 10).
  - discriminate.
  - intros v [<- | []]. split; apply Qle_refl.
Defined.

End GovernorFacts.

(* ------------------------------------------------------------------ *)
(** * Facts about the error tracker *)

Module ErrorTrackingFacts.

Import ErrorTracking.

Section Capped.

Context {A : Type}.

(** Truncating only when the list is too long is the same as always
    taking the first [n] entries. *)
Lemma cap_is_firstn (n : nat) (l : list A) :
  (if (n <? List.length l)%nat then firstn n l else l) = firstn n l.
Proof.
  destruct (Nat.ltb_spec n (List.length l)); [reflexivity |].
  symmetry. now apply firstn_all2.
Qed.

(** Putting a new entry in front of a capped list and capping again
    keeps the cap of the full record. *)
Lemma cap_unshift (n : nat) (a : A) (l : list A) :
  firstn (S n) (a :: firstn (S n) l) = firstn (S n) (a :: l).
Proof.
  rewrite !firstn_cons. f_equal. rewrite firstn_firstn.
  now replace (Nat.min n (S n)) with n by lia.
Qed.

End Capped.

Lemma track_all_snoc (v : env) (items : list tracked) (item : tracked)
    (s : ErrorTrackingService) :
  track_all v (items ++ [item]) s =
  match item with
  | ErrorData e => fst (trackError v e (track_all v items s))
  | IssueData i => fst (trackPerformanceIssue v i (track_all v items s))
  end.
Proof. unfold track_all. now rewrite fold_left_app. Qed.

(** Both lists hold the latest entries of their kind, newest first. *)
Lemma track_all_lists (v : env) (items : list tracked) :
  errors (track_all v items empty) = firstn 50 (rev (errors_of items))
  /\ performanceIssues (track_all v items empty)
     = firstn 100 (rev (issues_of items)).
Proof.
  induction items as [| item items [IHe IHi]] using rev_ind;
    [split; reflexivity |].
  rewrite track_all_snoc. unfold errors_of, issues_of in *.
  rewrite !flat_map_app, !rev_app_distr.
  destruct item as [e | i]; unfold trackError, trackPerformanceIssue;
    cbn [fst errors performanceIssues flat_map rev app];
    unfold maxStoredErrors, maxStoredIssues.
  - rewrite (cap_is_firstn 50), IHe. split; [| exact IHi].
    apply (cap_unshift 49).
  - rewrite (cap_is_firstn 100), IHi. split; [exact IHe |].
    apply (cap_unshift 99).
Qed.

Lemma errors_of_sixty (e : nat -> WebGLError) :
  errors_of (sixty e) = map e (seq 0 60).
Proof. reflexivity. Qed.

(** C7: after any sequence of tracking calls on an empty tracker the error
    list is the 50 most recent errors, newest first, and the issue list the
    100 most recent issues, newest first; 60 errors [e 0 .. e 59] leave
    exactly [e 59, e 58, ..., e 10]. *)
Theorem bounded_most_recent_first (v : env) (items : list tracked)
    (e : nat -> WebGLError) :
  let s := track_all v items empty in
  errors s = firstn 50 (rev (errors_of items))
  /\ performanceIssues s = firstn 100 (rev (issues_of items))
  /\ (List.length (errors s) <= 50)%nat
  /\ (List.length (performanceIssues s) <= 100)%nat
  /\ errors (track_all v (sixty e) empty) = map e (rev (seq 10 50))
  /\ List.length (errors (track_all v (sixty e) empty)) = 50%nat.
Proof.
  cbv zeta. destruct (track_all_lists v items) as [He Hi].
  rewrite He, Hi.
  rewrite (proj1 (track_all_lists v (sixty e))), errors_of_sixty.
  split; [reflexivity |]. split; [reflexivity |].
  split; [apply firstn_le_length |]. split; [apply firstn_le_length |].
  split; reflexivity.
Qed.

(** ** Further facts: the summaries *)

Section CountingFacts.

Context {K A : Type}.
Variable eqb : K -> K -> bool.
Hypothesis eqb_spec : forall a b, reflect (a = b) (eqb a b).
Variable type_of : A -> K.

Lemma lookup_assign (k t : K) (v : nat) (acc : list (K * nat)) :
  lookup eqb t (assign eqb k v acc)
  = if eqb k t then Some v else lookup eqb t acc.
Proof.
  induction acc as [| [k' n] rest IH]; simpl; [reflexivity |].
  destruct (eqb_spec k' k) as [-> | Hne]; simpl.
  - now destruct (eqb k t).
  - rewrite IH. destruct (eqb_spec k' t) as [-> | _]; [| reflexivity].
    destruct (eqb_spec k t) as [-> | _]; congruence.
Qed.

Lemma count_assign (k t : K) (v : nat) (acc : list (K * nat)) :
  count_or_zero eqb t (assign eqb k v acc)
  = if eqb k t then v else count_or_zero eqb t acc.
Proof.
  unfold count_or_zero. rewrite lookup_assign. now destruct (eqb k t).
Qed.

Lemma keys_assign (k : K) (v : nat) (acc : list (K * nat)) :
  (In k (map fst acc) -> map fst (assign eqb k v acc) = map fst acc)
  /\ (~ In k (map fst acc) ->
      map fst (assign eqb k v acc) = map fst acc ++ [k]).
Proof.
  induction acc as [| [k' n] rest [IHin IHout]]; simpl.
  - split; [intros [] | reflexivity].
  - destruct (eqb_spec k' k) as [-> | Hne]; simpl.
    + split; [reflexivity | intros H; exfalso; apply H; now left].
    + split; intros H.
      * rewrite IHin; [reflexivity |]. destruct H; [congruence | assumption].
      * rewrite IHout; [reflexivity | tauto].
Qed.

Lemma total_assign (k : K) (acc : list (K * nat)) :
  total_count (assign eqb k (count_or_zero eqb k acc + 1) acc)
  = S (total_count acc).
Proof.
  unfold count_or_zero.
  induction acc as [| [k' n] rest IH]; simpl; [reflexivity |].
  destruct (eqb_spec k' k) as [-> | Hne]; simpl; [lia |].
  rewrite IH. lia.
Qed.

(** The accumulator after the [reduce] started from [acc]. *)
Lemma reduce_facts (l : list A) (acc : list (K * nat)) (t : K) :
  let step := fun acc item =>
    assign eqb (type_of item) (count_or_zero eqb (type_of item) acc + 1) acc in
  let out := fold_left step l acc in
  count_or_zero eqb t out
  = (List.length (filter (fun item => eqb (type_of item) t) l)
     + count_or_zero eqb t acc)%nat
  /\ total_count out = (List.length l + total_count acc)%nat
  /\ (NoDup (map fst acc) -> NoDup (map fst out))
  /\ (lookup eqb t out = None <->
      lookup eqb t acc = None /\ forall item, In item l -> type_of item <> t).
Proof.
  cbv zeta. revert acc. induction l as [| a l IH]; intros acc.
  - simpl. repeat split; tauto.
  - cbn [fold_left].
    specialize (IH (assign eqb (type_of a)
                      (count_or_zero eqb (type_of a) acc + 1) acc)).
    destruct IH as (IHc & IHt & IHn & IHl). split; [| split; [| split]].
    + rewrite IHc, count_assign.
      cbn [filter]. destruct (eqb_spec (type_of a) t) as [-> | _];
        cbn [List.length]; lia.
    + rewrite IHt, total_assign. cbn [List.length]. lia.
    + intros Hnd. apply IHn.
      destruct (keys_assign (type_of a)
                  (count_or_zero eqb (type_of a) acc + 1) acc) as [Kin Kout].
      destruct (in_dec (fun x y => reflect_dec _ _ (eqb_spec x y))
                  (type_of a) (map fst acc)) as [I | N].
      * now rewrite Kin.
      * rewrite Kout by exact N. apply NoDup_app; auto.
        -- constructor; [intros [] | constructor].
        -- intros x Hx [<- | []]. contradiction.
    + rewrite IHl, lookup_assign.
      destruct (eqb_spec (type_of a) t) as [E | N].
      * split; [intros [H _]; discriminate |].
        intros [_ H]. exfalso. apply (H a); [now left | exact E].
      * split; intros [H1 H2]; (split; [exact H1 |]).
        -- intros item [<- | I]; auto.
        -- intros item I. apply H2. now right.
Qed.

End CountingFacts.

Lemma error_type_eqb_spec (a b : WebGLErrorType) :
  reflect (a = b) (error_type_eqb a b).
Proof. destruct a, b; simpl; constructor; congruence. Qed.

Lemma issue_type_eqb_spec (a b : PerformanceIssueType) :
  reflect (a = b) (issue_type_eqb a b).
Proof. destruct a, b; simpl; constructor; congruence. Qed.

(** X6: in the error summary the count stored for a type is the number of
    stored errors of that type, a type has no entry exactly when no stored
    error has it, no type is listed twice, and the counts add up to
    [totalErrors]. *)
Theorem error_summary_counts (s : ErrorTrackingService) (t : WebGLErrorType) :
  let sm := getErrorSummary s in
  count_or_zero error_type_eqb t (errorsByType sm)
  = List.length (filter (fun e => error_type_eqb (e_type e) t) (errors s))
  /\ (lookup error_type_eqb t (errorsByType sm) = None <->
      forall e, In e (errors s) -> e_type e <> t)
  /\ NoDup (map fst (errorsByType sm))
  /\ total_count (errorsByType sm) = totalErrors sm.
Proof.
  cbv zeta. unfold getErrorSummary, countByType.
  cbn [errorsByType totalErrors].
  destruct (reduce_facts error_type_eqb error_type_eqb_spec e_type
              (errors s) [] t) as (Hc & Ht & Hn & Hl).
  cbv zeta in *. split; [| split; [| split]].
  - rewrite Hc. unfold count_or_zero. simpl. lia.
  - rewrite Hl. simpl. tauto.
  - apply Hn. constructor.
  - rewrite Ht. simpl. lia.
Qed.

(** X7: the same for the performance summary. *)
Theorem performance_summary_counts (s : ErrorTrackingService)
    (t : PerformanceIssueType) :
  let sm := getPerformanceSummary s in
  count_or_zero issue_type_eqb t (issuesByType sm)
  = List.length
      (filter (fun i => issue_type_eqb (i_type i) t) (performanceIssues s))
  /\ (lookup issue_type_eqb t (issuesByType sm) = None <->
      forall i, In i (performanceIssues s) -> i_type i <> t)
  /\ NoDup (map fst (issuesByType sm))
  /\ total_count (issuesByType sm) = totalIssues sm.
Proof.
  cbv zeta. unfold getPerformanceSummary, countByType.
  cbn [issuesByType totalIssues].
  destruct (reduce_facts issue_type_eqb issue_type_eqb_spec i_type
              (performanceIssues s) [] t) as (Hc & Ht & Hn & Hl).
  cbv zeta in *. split; [| split; [| split]].
  - rewrite Hc. unfold count_or_zero. simpl. lia.
  - rewrite Hl. simpl. tauto.
  - apply Hn. constructor.
  - rewrite Ht. simpl. lia.
Qed.

(** X8: after any tracking calls on an empty tracker, the summaries count
    at most 50 errors and 100 issues, and [recentErrors] and
    [recentIssues] are the five entries tracked last, newest first. *)
Theorem summaries_after_tracking (v : env) (items : list tracked) :
  let s := track_all v items empty in
  totalErrors (getErrorSummary s)
  = Nat.min 50 (List.length (errors_of items))
  /\ recentErrors (getErrorSummary s) = firstn 5 (rev (errors_of items))
  /\ totalIssues (getPerformanceSummary s)
     = Nat.min 100 (List.length (issues_of items))
  /\ recentIssues (getPerformanceSummary s)
     = firstn 5 (rev (issues_of items)).
Proof.
  cbv zeta. destruct (track_all_lists v items) as [He Hi].
  unfold getErrorSummary, getPerformanceSummary.
  cbn [totalErrors recentErrors totalIssues recentIssues].
  rewrite He, Hi, !length_firstn, !length_rev, !firstn_firstn.
  repeat split; reflexivity.
Qed.

(** X9: a tracking call forwards at most one event to analytics, and it
    does so exactly when it runs in a window, in production, with [gtag]
    present; the value sent is 1 for an error and the measured value for
    an issue; what is stored does not depend on where the code runs. *)
Theorem forwarding_only_in_production (v v' : env) (e : WebGLError)
    (i : PerformanceIssue) (s : ErrorTrackingService) :
  snd (trackError v e s)
  = (if hasWindow v && PROD v && hasGtag v
     then [mkEvent "webgl_error" "WebGL" (inl (e_type e)) 1%Q (ErrorData e)]
     else [])
  /\ snd (trackPerformanceIssue v i s)
     = (if hasWindow v && PROD v && hasGtag v
        then [mkEvent "performance_issue" "WebGL" (inr (i_type i))
                (i_value i) (IssueData i)]
        else [])
  /\ fst (trackError v e s) = fst (trackError v' e s)
  /\ fst (trackPerformanceIssue v i s) = fst (trackPerformanceIssue v' i s).
Proof.
  unfold trackError, trackPerformanceIssue, reportToAnalytics.
  cbn [fst snd].
  destruct (hasWindow v), (PROD v), (hasGtag v); repeat split; reflexivity.
Qed.

(** ** Further facts: the classification of faults *)

Lemma prefix_append (p r : string) : String.prefix p (p ++ r)%string = true.
Proof.
  induction p as [| a p IH]; simpl; [now destruct r |].
  destruct (ascii_dec a a); [exact IH | congruence].
Qed.

Lemma prefix_split (p s : string) :
  String.prefix p s = true -> exists r, s = (p ++ r)%string.
Proof.
  revert s. induction p as [| a p IH]; intros s H.
  - now exists s.
  - destruct s as [| b s]; simpl in H; [discriminate |].
    destruct (ascii_dec a b) as [-> | _]; [| discriminate].
    destruct (IH s H) as [r ->]. now exists r.
Qed.

Lemma includes_unfold (hay needle : string) :
  includes hay needle
  = String.prefix needle hay
    || match hay with
       | EmptyString => false
       | String _ rest => includes rest needle
       end.
Proof. now destruct hay. Qed.

Lemma includes_intro (pre needle post : string) :
  includes (pre ++ needle ++ post)%string needle = true.
Proof.
  induction pre as [| a pre IH].
  - change (EmptyString ++ needle ++ post)%string with (needle ++ post)%string.
    now rewrite includes_unfold, prefix_append.
  - simpl. rewrite IH. apply orb_true_r.
Qed.

Lemma includes_elim (hay needle : string) :
  includes hay needle = true ->
  exists pre post, hay = (pre ++ needle ++ post)%string.
Proof.
  induction hay as [| a hay IH]; rewrite includes_unfold; intros H.
  - rewrite orb_false_r in H.
    destruct (prefix_split needle EmptyString H) as [r Hr].
    exists EmptyString, r. exact Hr.
  - apply orb_prop in H as [H | H].
    + destruct (prefix_split _ _ H) as [r ->]. now exists EmptyString, r.
    + destruct (IH H) as (pre & post & ->). now exists (String a pre), post.
Qed.

Lemma append_assoc (a b c : string) :
  ((a ++ b) ++ c)%string = (a ++ b ++ c)%string.
Proof. induction a as [| x a IH]; simpl; [reflexivity | now rewrite IH]. Qed.

(** Whatever contains a string contains what that string contains. *)
Lemma includes_trans (hay mid needle : string) :
  includes mid needle = true ->
  includes hay mid = true ->
  includes hay needle = true.
Proof.
  intros H1 H2.
  destruct (includes_elim _ _ H1) as (p1 & q1 & ->).
  destruct (includes_elim _ _ H2) as (p2 & q2 & ->).
  rewrite !append_assoc, <- (append_assoc p2 p1).
  apply includes_intro.
Qed.

Lemma toLowerCase_append (a b : string) :
  toLowerCase (a ++ b) = (toLowerCase a ++ toLowerCase b)%string.
Proof. induction a as [| x a IH]; simpl; [reflexivity | now rewrite IH]. Qed.

Lemma lowerChar_idempotent (c : ascii) : lowerChar (lowerChar c) = lowerChar c.
Proof. destruct c as [[] [] [] [] [] [] [] []]; reflexivity. Qed.

Lemma toLowerCase_idempotent (s : string) :
  toLowerCase (toLowerCase s) = toLowerCase s.
Proof.
  induction s as [| c s IH]; simpl; [reflexivity |].
  now rewrite lowerChar_idempotent, IH.
Qed.

(** X10: a fault whose message contains a keyword, written in any mix of
    upper and lower case and anywhere in the message, is classified as
    graphics-related. *)
Theorem keyword_found_in_any_case (st : option string)
    (pre k post : string) :
  In (toLowerCase k) webglKeywords ->
  isWebGLRelated (Some (mkErrorObject (Some (pre ++ k ++ post)%string) st))
  = true.
Proof.
  intros Hk. unfold isWebGLRelated. cbn [or_empty err_message].
  apply existsb_exists. exists (toLowerCase k). split; [exact Hk |].
  rewrite !toLowerCase_append. apply includes_intro.
Qed.

Lemma keyword_found_in_any_case_witness :
  isWebGLRelated
    (Some (mkErrorObject (Some "Failed to compile SHADER program"%string) None))
  = true.
Proof.
  apply (keyword_found_in_any_case None "Failed to compile "%string
           "SHADER"%string " program"%string).
  vm_compute. tauto.
Defined.

(** X11: the classification reads nothing but the message and does not
    depend on its letter case; a missing fault, a missing message and an
    empty message are never graphics-related. *)
Theorem classification_ignores_case (m : string) (st st' : option string) :
  isWebGLRelated (Some (mkErrorObject (Some (toLowerCase m)) st'))
  = isWebGLRelated (Some (mkErrorObject (Some m) st))
  /\ isWebGLRelated None = false
  /\ isWebGLRelated (Some (mkErrorObject None st)) = false
  /\ isWebGLRelated (Some (mkErrorObject (Some EmptyString) st)) = false.
Proof.
  split; [| repeat split; reflexivity].
  unfold isWebGLRelated. cbn [or_empty err_message].
  now rewrite toLowerCase_idempotent.
Qed.

(** X12: two of the ten keywords add nothing, since "framebuffer"
    contains "buffer" and "webglrenderer" contains "webgl": the fault is
    graphics-related exactly when its lower-cased message contains one of
    the other eight. *)
Theorem redundant_keywords (error : option ErrorObject) :
  isWebGLRelated error
  = match error with
    | None => false
    | Some e =>
        existsb (includes (toLowerCase (or_empty (err_message e))))
          coreKeywords
    end.
Proof.
  destruct error as [e |]; [| reflexivity].
  unfold isWebGLRelated. cbv zeta.
  set (m := toLowerCase (or_empty (err_message e))).
  unfold webglKeywords, coreKeywords. cbn [existsb].
  pose proof (fun H => includes_trans m "framebuffer" "buffer" eq_refl H) as Hb.
  pose proof (fun H => includes_trans m "webglrenderer" "webgl" eq_refl H) as Hw.
  destruct (includes m "framebuffer"); [rewrite (Hb eq_refl) |];
    destruct (includes m "webglrenderer"); try rewrite (Hw eq_refl);
    destruct (includes m "webgl"), (includes m "gl_"),
      (includes m "shader"), (includes m "texture"),
      (includes m "buffer"), (includes m "three.js"),
      (includes m "threejs"), (includes m "glcontext"); reflexivity.
Qed.

Lemma related_has_message (reason : option ErrorObject) :
  isWebGLRelated reason = true ->
  exists r m,
    reason = Some r /\ err_message r = Some m
    /\ or_promise_rejection (err_message r) = m
    /\ m <> "Promise rejection"%string.
Proof.
  destruct reason as [[[m |] st] |]; try discriminate.
  destruct m as [| c m'] eqn:E; [discriminate |].
  intros H. exists (mkErrorObject (Some (String c m')) st), (String c m').
  repeat split. intros Hm. rewrite Hm in H. vm_compute in H. discriminate.
Qed.

(** X13: the rejection listener either leaves the tracker alone and
    forwards nothing, or tracks a [model_load_error] whose message is the
    rejection's own message; the fallback text "Promise rejection" is
    never stored. *)
Theorem rejection_fallback_never_stored (v : env) (c : clock)
    (reason : option ErrorObject) (s : ErrorTrackingService) :
  onUnhandledRejection v c reason s = (s, [])
  \/ exists r m,
       reason = Some r /\ err_message r = Some m
       /\ m <> "Promise rejection"%string
       /\ onUnhandledRejection v c reason s
          = trackError v
              (mkError model_load_error m (err_stack r) (userAgent c)
                 (dateNow c) None)
              s.
Proof.
  unfold onUnhandledRejection.
  destruct (isWebGLRelated reason) eqn:H; [| now left].
  destruct (related_has_message reason H) as (r & m & -> & Hm & Hf & Hne).
  right. exists r, m. rewrite Hf. repeat split; assumption.
Qed.

End ErrorTrackingFacts.

(* ------------------------------------------------------------------ *)
(** * Facts about the scene store *)

Module SceneStoreFacts.

Import SceneStore.
Open Scope Q_scope.

(** [Math.max(0, Math.min(100, x))] is the clamp of [x] to [0, 100]. *)
Lemma max_min_is_clamp (v : Q) :
  Qmax 0 (Qmin 100 v) == clamp v 0 100 /\ 0 <= Qmax 0 (Qmin 100 v) <= 100.
Proof.
  unfold clamp.
  destruct (Qltb v 0) eqn:L; [apply Qltb_lt in L | apply Qltb_ge in L].
  - rewrite (Q.min_r 100 v) by Lqa.lra. rewrite (Q.max_l 0 v) by Lqa.lra.
    split; [reflexivity | Lqa.lra].
  - destruct (Qltb 100 v) eqn:U;
      [apply Qltb_lt in U | apply Qltb_ge in U].
    + rewrite (Q.min_l 100 v) by Lqa.lra.
      rewrite (Q.max_r 0 100) by Lqa.lra. split; [reflexivity | Lqa.lra].
    + rewrite (Q.min_r 100 v) by Lqa.lra. rewrite (Q.max_r 0 v) by Lqa.lra.
      split; [reflexivity | Lqa.lra].
Qed.

(** C9: whatever happened to the store before, after
    [setLoadingProgress x] the stored progress is [x] clamped to [0, 100]:
    0 below the range, 100 above it, [x] inside; the write is never
    refused. *)
Theorem setLoadingProgress_saturates (t0 : Z) (acts : list action) (v : Q) :
  let s := store_after t0 (acts ++ [setLoadingProgress v]) in
  loadingProgress s == clamp v 0 100
  /\ 0 <= loadingProgress s <= 100
  /\ (if Qltb v 0 then loadingProgress s == 0
      else if Qltb 100 v then loadingProgress s == 100
      else loadingProgress s == v).
Proof.
  cbv zeta. unfold store_after. rewrite fold_left_app. simpl.
  destruct (max_min_is_clamp v) as [E B]. repeat split; try apply B.
  - exact E.
  - unfold clamp in E. destruct (Qltb v 0); [exact E |].
    destruct (Qltb 100 v); exact E.
Qed.

(** ** The two copies of the performance mode *)

Lemma apply_keeps_agreement (t0 : Z) (s : SceneState) (a : action) :
  mode_defined a = true ->
  modes_agree s -> modes_agree (apply t0 s a).
Proof.
  unfold modes_agree. intros D H. destruct a; simpl in *; auto.
  - unfold spread. simpl.
    destruct (p_performanceMode preferences) as [[m |] |];
      [reflexivity | discriminate | exact H].
  - now destruct (isMobile b || isLowEndDevice b).
Qed.

Lemma apply_without_mode (t0 : Z) (s : SceneState) (a : action) :
  writes_mode a = false ->
  performanceMode (apply t0 s a) = performanceMode s
  /\ pref_performanceMode (userPreferences (apply t0 s a))
     = pref_performanceMode (userPreferences s).
Proof.
  destruct a; simpl; intros H; try discriminate; auto.
  - unfold spread. simpl.
    destruct (p_performanceMode preferences); [discriminate | auto].
  - now rewrite H.
Qed.

(** As long as no preference update carries [performanceMode: undefined],
    the two copies of the mode agree in every state the store reaches, and
    each operation that writes a mode writes it to both. *)
Lemma agreement_with_defined_modes (t0 : Z) (acts : list action)
    (s : SceneState) (m : PerformanceMode) (p : PartialUserPreferences) :
  (forallb mode_defined acts = true -> modes_agree (store_after t0 acts))
  /\ (performanceMode (apply t0 s (setPerformanceMode m)) = m
      /\ pref_performanceMode
           (userPreferences (apply t0 s (setPerformanceMode m))) = Some m)
  /\ (p_performanceMode p = Some (Some m) ->
      performanceMode (apply t0 s (updateUserPreferences p)) = m
      /\ pref_performanceMode
           (userPreferences (apply t0 s (updateUserPreferences p))) = Some m).
Proof.
  split; [| split].
  - unfold store_after.
    generalize (initialState t0) (eq_refl : modes_agree (initialState t0)).
    induction acts as [| a acts IH]; intros s0 H0 Hd; [exact H0 |].
    simpl in Hd. apply andb_prop in Hd as [Ha Hd].
    cbn [fold_left]. apply IH; [now apply apply_keeps_agreement | exact Hd].
  - split; reflexivity.
  - intros Hp. simpl. unfold spread. now rewrite Hp.
Qed.

(** C10 fails on the code: [updateUserPreferences] copies an own key
    [performanceMode] whose value is [undefined] into the stored
    preferences, while its test [if (preferences.performanceMode)] leaves
    the top-level mode: after this call on the initial state the top-level
    mode is [auto] and the mode in the preferences is [undefined]. *)
Theorem undefined_mode_breaks_agreement :
  let s := store_after 0 [updateUserPreferences undefinedMode] in
  modes_agree (initialState 0)
  /\ performanceMode s = auto
  /\ pref_performanceMode (userPreferences s) = None
  /\ ~ modes_agree s.
Proof.
  cbv zeta. split; [reflexivity |]. split; [reflexivity |].
  split; [reflexivity |]. unfold modes_agree. discriminate.
Qed.

(** ** Further facts: reset, progress, preferences, defaults *)

(** X14: [resetScene] forgets everything: whatever the store held, it
    holds the initial state afterwards, with the time of the call as the
    last interaction time. *)
Theorem resetScene_restores_defaults (t0 : Z) (acts : list action)
    (s : SceneState) (d : Z) :
  apply t0 s (resetScene d) = initialState d
  /\ store_after t0 (acts ++ [resetScene d]) = initialState d.
Proof.
  split; [reflexivity |].
  unfold store_after. now rewrite fold_left_app.
Qed.

Lemma apply_keeps_progress_range (t0 : Z) (s : SceneState) (a : action) :
  0 <= loadingProgress s <= 100 ->
  0 <= loadingProgress (apply t0 s a) <= 100.
Proof.
  intros H. destruct a; simpl; try exact H.
  - apply max_min_is_clamp.
  - split; Lqa.lra.
Qed.

(** X15: as long as every argument of [setLoadingProgress] is a real
    number (the arguments of the model; not NaN), the stored loading
    progress is between 0 and 100 in every state the store can reach. *)
Theorem loadingProgress_always_in_range (t0 : Z) (acts : list action) :
  0 <= loadingProgress (store_after t0 acts) <= 100.
Proof.
  unfold store_after. rewrite <- fold_left_rev_right.
  induction (rev acts) as [| a l IH]; simpl.
  - split; Lqa.lra.
  - now apply apply_keeps_progress_range.
Qed.

(** X16: after two preference updates in a row the stored preferences
    are those of one update with the merged object, the later keys
    winning; the whole store is the same as after the merged update
    unless the second object carries [performanceMode: undefined]; an
    update with the empty object changes nothing. *)
Theorem updateUserPreferences_compose (t0 : Z) (s : SceneState)
    (p q : PartialUserPreferences) :
  userPreferences
    (apply t0 (apply t0 s (updateUserPreferences p)) (updateUserPreferences q))
  = userPreferences (apply t0 s (updateUserPreferences (merge_partial p q)))
  /\ (p_performanceMode q <> Some None ->
      apply t0 (apply t0 s (updateUserPreferences p))
        (updateUserPreferences q)
      = apply t0 s (updateUserPreferences (merge_partial p q)))
  /\ apply t0 s (updateUserPreferences noPreferences) = s.
Proof.
  split; [| split].
  - destruct p as [p1 p2 p3 p4], q as [q1 q2 q3 q4].
    unfold apply, spread, merge_partial. cbn.
    destruct q1, q2, q3, q4; reflexivity.
  - intros Hq. destruct p as [p1 p2 p3 p4], q as [q1 q2 q3 q4].
    cbn [p_performanceMode] in Hq.
    unfold apply, spread, merge_partial. cbn.
    destruct q1, q2, q3, q4 as [[m |] |]; try reflexivity; congruence.
  - destruct s as [? ? ? ? ? ? ? ? ? [? ? ? ?] ? ? ?]. reflexivity.
Qed.

Lemma updateUserPreferences_compose_witness :
  apply 0
    (apply 0 (initialState 0)
       (updateUserPreferences (mkPartial None None None (Some (Some low)))))
    (updateUserPreferences (mkPartial (Some (Some true)) None None None))
  = apply 0 (initialState 0)
      (updateUserPreferences
         (mkPartial (Some (Some true)) None None (Some (Some low)))).
Proof.
  apply (updateUserPreferences_compose 0 (initialState 0)
           (mkPartial None None None (Some (Some low)))
           (mkPartial (Some (Some true)) None None None)).
  discriminate.
Defined.

(** X17: [initializeDefaults] only ever lowers the mode to [medium] (on a
    mobile or low-end device) or keeps it, only ever switches reduced
    motion on, and running it again on the same browser changes nothing
    but the interaction time. *)
Theorem initializeDefaults_is_idempotent (t0 : Z) (s : SceneState)
    (b : browser) (d d' : Z) :
  let s1 := apply t0 s (initializeDefaults b d) in
  (performanceMode s1 = medium \/ performanceMode s1 = performanceMode s)
  /\ reducedMotion (userPreferences s1)
     = (if prefersReducedMotion b then Some true
        else reducedMotion (userPreferences s))
  /\ apply t0 s1 (initializeDefaults b d') = apply t0 s (initializeDefaults b d').
Proof.
  cbv zeta. unfold apply. cbn.
  destruct (isMobile b || isLowEndDevice b), (prefersReducedMotion b);
    repeat split; auto.
Qed.

End SceneStoreFacts.

(* ------------------------------------------------------------------ *)
(** * Facts about the camera controller *)

Module CameraFacts.

Import Camera.
Open Scope R_scope.

Lemma squares_nonneg (v : Vector3) : 0 <= x v * x v + y v * y v + z v * z v.
Proof. nra. Qed.

Lemma length_nonneg (v : Vector3) : 0 <= length v.
Proof. apply sqrt_pos. Qed.

Lemma length_square (v : Vector3) :
  length v * length v = x v * x v + y v * y v + z v * z v.
Proof. apply sqrt_sqrt, squares_nonneg. Qed.

(** The norm of a vector from a candidate value. *)
Lemma length_is (v : Vector3) (d : R) :
  0 <= d -> d * d = x v * x v + y v * y v + z v * z v -> length v = d.
Proof.
  intros Hd E. apply sqrt_lem_1; auto. apply squares_nonneg.
Qed.

Lemma Rltb_true (a b : R) : a < b -> Rltb a b = true.
Proof. intros H. unfold Rltb. destruct (Rlt_dec a b); [reflexivity | lra]. Qed.

Lemma Rltb_false (a b : R) : b <= a -> Rltb a b = false.
Proof. intros H. unfold Rltb. destruct (Rlt_dec a b); [lra | reflexivity]. Qed.

Lemma vertical_clamp_range (w : R) : 0.5 <= Rmin 50 (Rmax 0.5 w) <= 50.
Proof.
  unfold Rmin, Rmax.
  destruct (Rle_dec 0.5 w); destruct (Rle_dec 50 _); lra.
Qed.

Lemma vertical_clamp_inside (w : R) :
  0.5 <= w <= 50 -> Rmin 50 (Rmax 0.5 w) = w.
Proof.
  intros H. unfold Rmin, Rmax.
  destruct (Rle_dec 0.5 w); destruct (Rle_dec 50 _); lra.
Qed.

(** Outside the sphere, renormalising and rescaling is one scaling by
    [100 / length]. *)
Lemma rescale_outside (v : Vector3) :
  100 < length v ->
  multiplyScalar (normalize v) 100
  = multiplyScalar v (100 / length v)
  /\ length (multiplyScalar (normalize v) 100) = 100.
Proof.
  intros H. unfold normalize.
  destruct (Req_dec_T (length v) 0) as [Z | NZ]; [lra |].
  pose proof (length_square v) as Sq.
  assert (E : multiplyScalar (divideScalar v (length v)) 100
              = multiplyScalar v (100 / length v)).
  { unfold divideScalar, multiplyScalar. simpl. f_equal; field; exact NZ. }
  rewrite E. split; [reflexivity |].
  apply length_is; [lra |]. unfold multiplyScalar. simpl.
  transitivity
    ((x v * x v + y v * y v + z v * z v) * (100 / length v) * (100 / length v));
    [| ring].
  rewrite <- Sq. field. exact NZ.
Qed.

(** The boundaries, one by one. *)
Lemma clampPosition_bounds (p : Vector3) :
  length (clampPosition p) <= 100
  /\ y (clampPosition p) <= 50
  /\ (0.5 <= y (clampPosition p) \/ length (clampPosition p) = 100).
Proof.
  unfold clampPosition. cbv zeta.
  set (p2 := set_y (set_y p _) _).
  assert (Hy : 0.5 <= y p2 <= 50) by (subst p2; simpl; apply vertical_clamp_range).
  clearbody p2.
  unfold Rltb. destruct (Rlt_dec 100 (length p2)) as [Out | In].
  - destruct (rescale_outside p2 Out) as [E L]. rewrite L.
    split; [lra |]. split; [| now right].
    rewrite E. unfold multiplyScalar. simpl y.
    assert (0 < 100 / length p2 < 1).
    { split.
      - apply Rdiv_lt_0_compat; lra.
      - apply (Rmult_lt_reg_r (length p2)); [lra |].
        unfold Rdiv. rewrite Rmult_assoc, Rinv_l by lra. lra. }
    set (k := 100 / length p2) in *. clearbody k. nra.
  - split; [lra |]. split; [lra | left; lra].
Qed.

Lemma keyDirection_noKeys : keyDirection noKeys = mkVec 0 0 0.
Proof. reflexivity. Qed.

Lemma length_origin : length (mkVec 0 0 0) = 0.
Proof. apply length_is; simpl; lra. Qed.

(** An enabled frame ends with the clamp of the moved position. *)
Lemma position_after_frame getWorldDirection (props : CameraControllerProps)
    (delta : R) (c : Controller) :
  enabled props = true ->
  position_after getWorldDirection props delta c
  = clampPosition
      (moved getWorldDirection props delta
         (mkCamera (position (camera c))
            (Rmax (- PI / 2) (Rmin (PI / 2) (- snd (mousePos c))))
            (- fst (mousePos c)))
         (keys c)).
Proof.
  intros E. unfold position_after, useFrame. rewrite E. reflexivity.
Qed.

Lemma moved_without_keys getWorldDirection (props : CameraControllerProps)
    (delta : R) (cam : CameraObject) :
  moved getWorldDirection props delta cam noKeys = position cam.
Proof.
  unfold moved. rewrite keyDirection_noKeys, length_origin.
  now rewrite Rltb_false by lra.
Qed.

Lemma length_overhead : length overhead = 150.
Proof. apply length_is; unfold overhead; simpl; lra. Qed.

Lemma length_grazing : length grazing = 125.0005.
Proof. apply length_is; unfold grazing; simpl; lra. Qed.

Lemma length_far_corner : length far_corner = 150.
Proof. apply length_is; unfold far_corner; simpl; lra. Qed.

(** C6, as stated, fails twice.  A camera at distance 150 straight
    above the origin comes out at distance 50, since the vertical clamp
    runs before the radius clamp; and a camera low above the ground at
    distance 125.0005 is pulled onto the sphere with its vertical
    component below 0.5. *)
Lemma clamp_order_breaks_claim :
  length overhead = 150
  /\ position_after looking_down_z defaultProps (1 / 60) (atRest overhead)
     = mkVec 0 50 0
  /\ length
       (position_after looking_down_z defaultProps (1 / 60) (atRest overhead))
     <> 100
  /\ y (position_after looking_down_z defaultProps (1 / 60) (atRest grazing))
     < 0.5.
Proof.
  assert (A : position_after looking_down_z defaultProps (1 / 60)
                (atRest overhead) = mkVec 0 50 0).
  { rewrite position_after_frame by reflexivity.
    unfold atRest. cbn [keys camera position].
    rewrite moved_without_keys. cbn [position].
    unfold clampPosition, overhead. cbv zeta. unfold set_y. cbn [x y z].
    replace (Rmax 0.5 150) with 150
      by (unfold Rmax; destruct (Rle_dec 0.5 150); lra).
    replace (Rmin 50 150) with 50
      by (unfold Rmin; destruct (Rle_dec 50 150); lra).
    assert (L : length (mkVec 0 50 0) = 50) by (apply length_is; simpl; lra).
    rewrite L. now rewrite Rltb_false by lra. }
  split; [exact length_overhead |]. split; [exact A |]. split.
  - rewrite A.
    assert (L : length (mkVec 0 50 0) = 50) by (apply length_is; simpl; lra).
    rewrite L. lra.
  - rewrite position_after_frame by reflexivity.
    unfold atRest. cbn [keys camera position].
    rewrite moved_without_keys. cbn [position].
    unfold clampPosition. cbv zeta.
    assert (P : set_y (set_y grazing (Rmax 0.5 (y grazing)))
                  (Rmin 50 (y (set_y grazing (Rmax 0.5 (y grazing)))))
                = grazing).
    { unfold grazing, set_y. cbn [x y z].
      replace (Rmax 0.5 0.5) with 0.5
        by (unfold Rmax; destruct (Rle_dec 0.5 0.5); lra).
      replace (Rmin 50 0.5) with 0.5
        by (unfold Rmin; destruct (Rle_dec 50 0.5); lra).
      reflexivity. }
    rewrite P, length_grazing. rewrite Rltb_true by lra.
    assert (Out : 100 < length grazing) by (rewrite length_grazing; lra).
    rewrite (proj1 (rescale_outside grazing Out)), length_grazing.
    unfold multiplyScalar, grazing. cbn [y]. lra.
Qed.

(** C6, amended: a camera at distance 150 whose vertical component is
    already inside [0.5, 50] is, after one frame with no key held, at
    distance exactly 100 in the same direction; and after every frame the
    distance from the origin is at most 100, the vertical component is at
    most 50, and it is at least 0.5 whenever the position is not on the
    sphere of radius 100. *)
Theorem clamped_to_sphere getWorldDirection (props : CameraControllerProps)
    (delta : R) (c : Controller) :
  enabled props = true ->
  let p' := position_after getWorldDirection props delta c in
  (length p' <= 100 /\ y p' <= 50 /\ (0.5 <= y p' \/ length p' = 100))
  /\ (keys c = noKeys ->
      length (position (camera c)) = 150 ->
      0.5 <= y (position (camera c)) <= 50 ->
      p' = multiplyScalar (position (camera c)) (100 / 150)
      /\ length p' = 100).
Proof.
  intros En p'. subst p'. split.
  - rewrite position_after_frame by exact En.
    apply clampPosition_bounds.
  - intros Hk Hl Hy.
    rewrite position_after_frame by exact En.
    rewrite Hk, moved_without_keys. cbn [position].
    unfold clampPosition. cbv zeta.
    assert (P : set_y (set_y (position (camera c))
                         (Rmax 0.5 (y (position (camera c)))))
                  (Rmin 50 (y (set_y (position (camera c))
                                 (Rmax 0.5 (y (position (camera c)))))))
                = position (camera c)).
    { destruct (position (camera c)) as [px py pz]. unfold set_y.
      cbn [x y z] in *. now rewrite vertical_clamp_inside. }
    rewrite P, Hl. rewrite Rltb_true by lra.
    assert (Out : 100 < length (position (camera c))) by lra.
    destruct (rescale_outside _ Out) as [E L].
    rewrite Hl in E. split; [exact E | exact L].
Qed.

Lemma clamped_to_sphere_witness :
  enabled defaultProps = true
  /\ length far_corner = 150
  /\ position_after looking_down_z defaultProps (1 / 60) (atRest far_corner)
     = multiplyScalar far_corner (100 / 150)
  /\ length
       (position_after looking_down_z defaultProps (1 / 60) (atRest far_corner))
     = 100.
Proof.
  split; [reflexivity |]. split; [exact length_far_corner |].
  apply (clamped_to_sphere looking_down_z defaultProps (1 / 60)
           (atRest far_corner)).
  - reflexivity.
  - reflexivity.
  - exact length_far_corner.
  - unfold atRest, far_corner. simpl. lra.
Defined.

(** ** Further facts: rotation, navigation flag, publication *)

Lemma pitch_clamp_range (w : R) :
  - PI / 2 <= Rmax (- PI / 2) (Rmin (PI / 2) w) <= PI / 2.
Proof.
  pose proof PI_RGT_0 as P. unfold Rmin, Rmax.
  destruct (Rle_dec (PI / 2) w); destruct (Rle_dec (- PI / 2) _); lra.
Qed.

(** X18: after every frame of an enabled controller the pitch of the
    camera is within a quarter turn up or down, the yaw is the negated
    horizontal look offset, and the rotation is published to the store
    first. *)
Theorem pitch_stays_within_quarter_turn getWorldDirection
    (props : CameraControllerProps) (delta : R) (c : Controller) :
  enabled props = true ->
  let r := useFrame getWorldDirection props delta c in
  - PI / 2 <= rotation_x (camera (fst r)) <= PI / 2
  /\ rotation_y (camera (fst r)) = - fst (mousePos c)
  /\ hd_error (snd r)
     = Some (UpdateCameraRotation (rotation_x (camera (fst r)))
               (rotation_y (camera (fst r)))).
Proof.
  intros En. unfold useFrame. rewrite En. cbn.
  split; [apply pitch_clamp_range | split; reflexivity].
Qed.

Lemma pitch_stays_within_quarter_turn_witness :
  - PI / 2
  <= rotation_x
       (camera (fst (useFrame looking_down_z defaultProps (1 / 60)
                       (atRest far_corner))))
  <= PI / 2.
Proof.
  apply (pitch_stays_within_quarter_turn looking_down_z defaultProps (1 / 60)
           (atRest far_corner)).
  reflexivity.
Defined.

Lemma length_zero_iff (v : Vector3) : length v = 0 <-> v = mkVec 0 0 0.
Proof.
  split.
  - intros H. pose proof (length_square v) as Sq. rewrite H in Sq.
    destruct v as [a b c]. cbn [x y z] in Sq.
    assert (a = 0) by nra. assert (b = 0) by nra. assert (c = 0) by nra.
    now subst.
  - intros ->. apply length_origin.
Qed.

Lemma moving_iff (k : Keys) :
  Rltb 0 (length (keyDirection k)) = true <-> keyDirection k <> mkVec 0 0 0.
Proof.
  pose proof (length_nonneg (keyDirection k)) as P.
  rewrite <- length_zero_iff. unfold Rltb.
  destruct (Rlt_dec 0 (length (keyDirection k))); split; intros H;
    try reflexivity; try discriminate; lra.
Qed.

Lemma navigating_flag (c : Controller) :
  Rltb 0 (length (keyDirection (keys c))) || isMouseDown c = true
  <-> navigating c.
Proof.
  unfold navigating. rewrite orb_true_iff, moving_iff. tauto.
Qed.

(** X19: a frame tells the store that the user is navigating, and renews
    the last interaction time, exactly when the pointer is captured or the
    held keys give a direction that is not zero; otherwise it tells the
    store that the user is not navigating. *)
Theorem navigating_iff_input getWorldDirection
    (props : CameraControllerProps) (delta : R) (c : Controller) :
  enabled props = true ->
  let calls := snd (useFrame getWorldDirection props delta c) in
  (In (SetIsNavigating true) calls <-> navigating c)
  /\ (In UpdateLastInteractionTime calls <-> navigating c)
  /\ (In (SetIsNavigating false) calls <-> ~ navigating c).
Proof.
  intros En. unfold useFrame. rewrite En. cbn [negb snd].
  rewrite <- navigating_flag.
  destruct (Rltb 0 (length (keyDirection (keys c))) || isMouseDown c);
    match goal with
    | |- context [if ?b then [UpdateUserPosition _] else _] => destruct b
    end; cbn [app In]; repeat split; intros H;
    repeat match goal with
      | H : _ \/ _ |- _ => destruct H
      | H : False |- _ => destruct H
      end;
    try discriminate; try congruence; auto.
Qed.

Lemma navigating_iff_input_witness :
  In (SetIsNavigating false)
    (snd (useFrame looking_down_z defaultProps (1 / 60) (atRest far_corner))).
Proof.
  apply (navigating_iff_input looking_down_z defaultProps (1 / 60)
           (atRest far_corner)); [reflexivity |].
  unfold navigating, atRest. cbn [isMouseDown keys].
  rewrite keyDirection_noKeys. intros [H | H]; [discriminate | now apply H].
Defined.

(** X20: keys that oppose each other cancel: when forward and backward,
    left and right, up and down are held or released in pairs, the
    direction is zero and the frame does not move the camera before the
    clamp. *)
Theorem opposite_keys_cancel getWorldDirection
    (props : CameraControllerProps) (delta : R) (cam : CameraObject)
    (k : Keys) :
  forward k = backward k ->
  left k = right k ->
  up k = down k ->
  keyDirection k = mkVec 0 0 0
  /\ moved getWorldDirection props delta cam k = position cam.
Proof.
  intros Hf Hl Hu.
  assert (E : keyDirection k = mkVec 0 0 0).
  { unfold keyDirection. rewrite Hf, Hl, Hu.
    destruct (backward k), (right k), (down k); f_equal; lra. }
  split; [exact E |].
  unfold moved. rewrite E, length_origin. now rewrite Rltb_false by lra.
Qed.

Lemma opposite_keys_cancel_witness :
  moved looking_down_z defaultProps (1 / 60) (mkCamera far_corner 0 0)
    (mkKeys true true false false false false)
  = far_corner.
Proof.
  apply (opposite_keys_cancel looking_down_z defaultProps (1 / 60)
           (mkCamera far_corner 0 0)
           (mkKeys true true false false false false)); reflexivity.
Defined.

Lemma equals_distance (a b : Vector3) :
  equals a b = true -> distanceTo a b = 0.
Proof.
  unfold equals, Reqb. intros H.
  destruct (Req_dec_T (x b) (x a)) as [Ex |]; [| discriminate].
  destruct (Req_dec_T (y b) (y a)) as [Ey |]; [| discriminate].
  destruct (Req_dec_T (z b) (z a)) as [Ez |]; [| discriminate].
  unfold distanceTo. cbv zeta. rewrite Ex, Ey, Ez.
  replace ((x a - x a) * (x a - x a) + (y a - y a) * (y a - y a)
           + (z a - z a) * (z a - z a)) with 0 by ring.
  apply sqrt_0.
Qed.

Lemma distance_from_origin (p : Vector3) :
  distanceTo (mkVec 0 0 0) p = length p.
Proof.
  unfold distanceTo, length. cbv zeta. cbn [x y z]. f_equal. ring.
Qed.

Lemma far_corner_after_frame :
  position_after looking_down_z defaultProps (1 / 60) (atRest far_corner)
  = multiplyScalar far_corner (100 / 150)
  /\ length
       (position_after looking_down_z defaultProps (1 / 60) (atRest far_corner))
     = 100.
Proof.
  rewrite position_after_frame by reflexivity.
  unfold atRest. cbn [keys camera position mousePos].
  rewrite moved_without_keys. cbn [position].
  unfold clampPosition. cbv zeta.
  assert (P : set_y (set_y far_corner (Rmax 0.5 (y far_corner)))
                (Rmin 50 (y (set_y far_corner (Rmax 0.5 (y far_corner)))))
              = far_corner).
  { unfold far_corner, set_y. cbn [x y z].
    rewrite vertical_clamp_inside by lra. reflexivity. }
  rewrite P, length_far_corner. rewrite Rltb_true by lra.
  assert (Out : 100 < length far_corner) by (rewrite length_far_corner; lra).
  destruct (rescale_outside far_corner Out) as [E L].
  rewrite length_far_corner in E. split; [exact E | exact L].
Qed.

(** X21: a frame publishes the camera position to the store exactly when
    it is more than 0.1 away from the position published last, and only
    then replaces the remembered position; the test for equality before
    the distance test changes nothing. *)
Theorem position_published_beyond_threshold getWorldDirection
    (props : CameraControllerProps) (delta : R) (c : Controller) :
  enabled props = true ->
  let r := useFrame getWorldDirection props delta c in
  let p := position (camera (fst r)) in
  (0.1 < distanceTo (lastPosition c) p ->
   In (UpdateUserPosition p) (snd r) /\ lastPosition (fst r) = p)
  /\ (distanceTo (lastPosition c) p <= 0.1 ->
      (forall q, ~ In (UpdateUserPosition q) (snd r))
      /\ lastPosition (fst r) = lastPosition c).
Proof.
  intros En. unfold useFrame. rewrite En. cbn [negb fst snd camera position].
  set (pos := clampPosition _).
  split; intros H.
  - rewrite (Rltb_true _ _ H).
    assert (Hne : equals (lastPosition c) pos = false).
    { destruct (equals (lastPosition c) pos) eqn:E; [| reflexivity].
      apply equals_distance in E. lra. }
    rewrite Hne. cbn [negb andb lastPosition].
    split; [| reflexivity].
    apply in_or_app. right. apply in_or_app. right. now left.
  - rewrite (Rltb_false _ _ H), andb_false_r. cbn [lastPosition].
    split; [| reflexivity].
    intros q Hq. cbn [app In] in Hq.
    destruct Hq as [Hq | [Hq | Hq]]; try discriminate.
    rewrite app_nil_r in Hq.
    destruct (Rltb 0 (length (keyDirection (keys c))) || isMouseDown c);
      cbn [In] in Hq; intuition discriminate.
Qed.

Lemma position_published_beyond_threshold_witness :
  In (UpdateUserPosition (multiplyScalar far_corner (100 / 150)))
    (snd (useFrame looking_down_z defaultProps (1 / 60) (atRest far_corner))).
Proof.
  destruct far_corner_after_frame as [E L].
  destruct (position_published_beyond_threshold looking_down_z defaultProps
              (1 / 60) (atRest far_corner)) as [H _]; [reflexivity |].
  fold (position_after looking_down_z defaultProps (1 / 60)
          (atRest far_corner)) in H.
  rewrite E in H. apply H.
  unfold atRest. cbn [lastPosition].
  rewrite distance_from_origin, <- E, L. lra.
Defined.

(** ** Further facts: the listeners *)

(** Case analysis on the key code, literal by literal. *)
Ltac by_code code :=
  repeat match goal with
    | |- context [String.eqb code ?l] =>
        destruct (String.eqb_spec code l) as [-> | ?]; cbn
    end.

(** X22: releasing a key undoes pressing it whatever was held before; a
    repeated press changes nothing; a press never releases a key and a
    release never presses one; only the space bar suppresses the browser's
    default action; and the two codes of one action share one flag, so
    releasing the arrow releases the action although the letter is still
    down. *)
Theorem key_listeners_compose (code : string) (k : Keys) :
  handleKeyUp code (fst (handleKeyDown code k)) = handleKeyUp code k
  /\ fst (handleKeyDown code (fst (handleKeyDown code k)))
     = fst (handleKeyDown code k)
  /\ held_in k (fst (handleKeyDown code k))
  /\ held_in (handleKeyUp code k) k
  /\ (snd (handleKeyDown code k) = true <-> code = "Space"%string)
  /\ forward (handleKeyUp "ArrowUp" (fst (handleKeyDown "KeyW" k))) = false.
Proof.
  unfold handleKeyDown, handleKeyUp, held_in.
  split; [| split; [| split; [| split; [| split]]]].
  - by_code code; reflexivity.
  - by_code code; reflexivity.
  - by_code code; repeat split; auto.
  - by_code code; repeat split; auto; discriminate.
  - by_code code; split; intros H; try discriminate; try reflexivity;
      congruence.
  - reflexivity.
Qed.

Lemma touching_after_moves (props : CameraControllerProps) (p0 : R * R)
    (ps : list (R * R)) (c : Controller) :
  isTouching (snd (drag props p0 ps c)) = true.
Proof.
  unfold drag. induction ps as [| p ps IH] using rev_ind; [reflexivity |].
  rewrite fold_left_app. cbn [fold_left].
  destruct (fold_left _ ps _) as [c' t']. cbn [snd] in IH.
  unfold handleTouchMove. rewrite IH. reflexivity.
Qed.

(** X23: during a touch drag the look offsets grow by the distance
    between where the finger went down and where it is now, times
    [lookSpeed * 0.001], however the finger got there; nothing else of the
    controller changes. *)
Theorem drag_depends_on_end_points (props : CameraControllerProps)
    (p0 : R * R) (ps : list (R * R)) (c : Controller) :
  let r := drag props p0 ps c in
  let pe := last ps p0 in
  fst (mousePos (fst r))
  = fst (mousePos c) + (fst pe - fst p0) * lookSpeed props * 0.001
  /\ snd (mousePos (fst r))
     = snd (mousePos c) + (snd pe - snd p0) * lookSpeed props * 0.001
  /\ touchStart (snd r) = pe
  /\ camera (fst r) = camera c
  /\ keys (fst r) = keys c
  /\ isMouseDown (fst r) = isMouseDown c
  /\ lastPosition (fst r) = lastPosition c.
Proof.
  cbv zeta. induction ps as [| p ps IH] using rev_ind.
  - unfold drag. cbn. destruct p0. cbn. repeat split; try reflexivity; lra.
  - pose proof (touching_after_moves props p0 ps c) as Ht.
    rewrite last_last. unfold drag in *. rewrite fold_left_app.
    cbn [fold_left].
    destruct (fold_left _ ps _) as [c' t']. cbn [fst snd] in *.
    destruct IH as (Hx & Hy & Hs & Hc & Hk & Hm & Hl).
    unfold handleTouchMove. rewrite Ht. cbn.
    rewrite Hx, Hy, Hs, Hc, Hk, Hm, Hl. destruct p as [px py].
    cbn [fst snd]. repeat split; try reflexivity; lra.
Qed.

(** X24: mouse movement turns the camera only while the left button is
    held: after the button is released a movement changes nothing, another
    button does not capture the pointer, and two movements while the
    button is held add up. *)
Theorem mouse_look_only_while_pressed (props : CameraControllerProps)
    (a b a' b' : R) (button : nat) (c : Controller) :
  handleMouseMove props (Some a) (Some b) (handleMouseUp 0 c)
  = handleMouseUp 0 c
  /\ (button <> 0%nat -> handleMouseDown button c = c)
  /\ mousePos
       (handleMouseMove props (Some a') (Some b')
          (handleMouseMove props (Some a) (Some b) (handleMouseDown 0 c)))
     = (fst (mousePos c) + a * lookSpeed props * 0.002
          + a' * lookSpeed props * 0.002,
        snd (mousePos c) + b * lookSpeed props * 0.002
          + b' * lookSpeed props * 0.002).
Proof.
  split; [reflexivity | split; [| reflexivity]].
  intros H. unfold handleMouseDown.
  destruct (Nat.eqb_spec button 0); [contradiction | reflexivity].
Qed.

Lemma mouse_look_only_while_pressed_witness :
  handleMouseDown 2 (atRest far_corner) = atRest far_corner.
Proof.
  apply (mouse_look_only_while_pressed defaultProps 0 0 0 0 2
           (atRest far_corner)).
  discriminate.
Defined.

(** ** Further facts: the movement *)

(** The movement block when some direction is held, with the two
    camera-relative axes named. *)
Lemma moved_when_moving getWorldDirection (props : CameraControllerProps)
    (delta : R) (cam : CameraObject) (k : Keys) :
  0 < length (keyDirection k) ->
  moved getWorldDirection props delta cam k
  = let d := normalize (keyDirection k) in
    let r := normalize (crossVectors (getWorldDirection cam) worldUp) in
    let f := normalize (crossVectors worldUp r) in
    add (position cam)
      (multiplyScalar
         (addScaledVector
            (addScaledVector (addScaledVector (mkVec 0 0 0) r (x d))
               worldUp (y d))
            f (- z d))
         (movementSpeed props * delta)).
Proof. intros H. unfold moved. now rewrite (Rltb_true _ _ H). Qed.

Lemma normalize_unit (v : Vector3) :
  length v = 1 -> normalize v = v.
Proof.
  intros H. unfold normalize. rewrite H.
  destruct (Req_dec_T 1 0); [lra |].
  unfold divideScalar, multiplyScalar. destruct v. cbn. f_equal; field.
Qed.

(** X25: when only the vertical keys decide, the camera moves straight
    up or down in world space by [movementSpeed * delta], whatever way it
    looks. *)
Theorem vertical_keys_use_world_up getWorldDirection
    (props : CameraControllerProps) (delta : R) (cam : CameraObject)
    (k : Keys) :
  vertical_only k ->
  moved getWorldDirection props delta cam k
  = mkVec (x (position cam))
      (y (position cam)
       + (if up k then 1 else -1) * (movementSpeed props * delta))
      (z (position cam)).
Proof.
  intros (Hf & Hl & Hu).
  assert (E : keyDirection k = mkVec 0 (if up k then 1 else -1) 0).
  { unfold keyDirection. rewrite Hf, Hl, Hu.
    destruct (backward k), (right k), (down k); cbn; f_equal; lra. }
  assert (L : length (keyDirection k) = 1).
  { rewrite E. apply length_is; [lra |]. cbn. destruct (up k); lra. }
  rewrite moved_when_moving by lra. cbv zeta.
  rewrite (normalize_unit _ L), E. cbn [x y z].
  generalize (normalize (crossVectors (getWorldDirection cam) worldUp)).
  intros r. generalize (normalize (crossVectors worldUp r)). intros f.
  unfold add, multiplyScalar, addScaledVector, worldUp. cbn [x y z].
  f_equal; ring.
Qed.

Lemma vertical_keys_use_world_up_witness :
  moved looking_down_z defaultProps (1 / 60) (mkCamera far_corner 0 0)
    (mkKeys false false false false true false)
  = mkVec 100 (50 + 1 * (10 * (1 / 60))) 100.
Proof.
  apply (vertical_keys_use_world_up looking_down_z defaultProps (1 / 60)
           (mkCamera far_corner 0 0)
           (mkKeys false false false false true false)).
  repeat split.
Defined.

Lemma normSq_length (v : Vector3) : length v * length v = normSq v.
Proof. apply length_square. Qed.

(** A normalised vector has norm one, unless it was the zero vector. *)
Lemma normalize_cases (v : Vector3) :
  normSq (normalize v) = 1 \/ normalize v = mkVec 0 0 0.
Proof.
  unfold normalize.
  destruct (Req_dec_T (length v) 0) as [Z | NZ].
  - right. apply length_zero_iff in Z. rewrite Z.
    unfold divideScalar, multiplyScalar. cbn. f_equal; field.
  - left. pose proof (normSq_length v) as Sq.
    unfold normSq, divideScalar, multiplyScalar in *. cbn [x y z].
    transitivity
      ((x v * x v + y v * y v + z v * z v) * (1 / length v) * (1 / length v));
      [ring |].
    rewrite <- Sq. field. exact NZ.
Qed.

(** The right axis is horizontal. *)
Lemma right_axis_horizontal (c : Vector3) :
  y (normalize (crossVectors c worldUp)) = 0.
Proof.
  unfold normalize, divideScalar, multiplyScalar, crossVectors, worldUp.
  cbn [x y z]. ring.
Qed.

(** The flattened forward axis is the right axis turned a quarter. *)
Lemma forward_axis (r : Vector3) :
  y r = 0 ->
  normSq r = 1 \/ r = mkVec 0 0 0 ->
  normalize (crossVectors worldUp r) = mkVec (z r) 0 (- x r).
Proof.
  intros Hy Hr.
  assert (C : crossVectors worldUp r = mkVec (z r) 0 (- x r)).
  { unfold crossVectors, worldUp. cbn [x y z]. f_equal; ring. }
  rewrite C. destruct Hr as [H1 | H0].
  - apply normalize_unit. apply length_is; [lra |].
    unfold normSq in H1. cbn [x y z]. rewrite Hy in H1. lra.
  - rewrite H0. cbn [x y z]. unfold normalize.
    assert (L : length (mkVec 0 0 (- 0)) = 0)
      by (apply length_is; cbn; lra).
    rewrite L. destruct (Req_dec_T 0 0); [| lra].
    unfold divideScalar, multiplyScalar. cbn. f_equal; field.
Qed.

Lemma length_scaled (v : Vector3) (s : R) :
  0 <= s -> length (multiplyScalar v s) = s * length v.
Proof.
  intros Hs. apply length_is.
  - pose proof (length_nonneg v). nra.
  - pose proof (length_square v) as Sq. unfold multiplyScalar. cbn [x y z].
    nra.
Qed.

Lemma length_at_most_one (v : Vector3) : normSq v <= 1 -> length v <= 1.
Proof.
  intros H. pose proof (normSq_length v) as Sq.
  pose proof (length_nonneg v) as P.
  destruct (Rle_dec (length v) 1); [assumption | nra].
Qed.

(** X26: in one frame the keys move the camera, before the clamp, by at
    most [movementSpeed * delta], whichever keys are held and whichever
    way the camera looks: diagonal movement is not faster. *)
Theorem step_is_at_most_speed_times_delta getWorldDirection
    (props : CameraControllerProps) (delta : R) (cam : CameraObject)
    (k : Keys) :
  0 <= movementSpeed props * delta ->
  length
    (displacement (position cam) (moved getWorldDirection props delta cam k))
  <= movementSpeed props * delta.
Proof.
  intros Hs.
  destruct (Rlt_dec 0 (length (keyDirection k))) as [Hm | Hm].
  - rewrite moved_when_moving by exact Hm. cbv zeta.
    pose proof (right_axis_horizontal (getWorldDirection cam)) as Ry.
    pose proof (normalize_cases
                  (crossVectors (getWorldDirection cam) worldUp)) as Rn.
    set (r := normalize (crossVectors (getWorldDirection cam) worldUp)) in *.
    rewrite (forward_axis r Ry Rn).
    assert (Dn : normSq (normalize (keyDirection k)) = 1).
    { destruct (normalize_cases (keyDirection k)) as [H | H]; [exact H |].
      exfalso. unfold normalize in H.
      destruct (Req_dec_T (length (keyDirection k)) 0); [lra |].
      assert (Z : keyDirection k = mkVec 0 0 0).
      { destruct (keyDirection k) as [a b c].
        unfold divideScalar, multiplyScalar in H. cbn [x y z] in H.
        injection H as Ha Hb Hc.
        set (L := length (mkVec a b c)) in *.
        assert (Li : 1 / L <> 0)
          by (unfold Rdiv; rewrite Rmult_1_l; now apply Rinv_neq_0_compat).
        f_equal; nra. }
      apply length_zero_iff in Z. lra. }
    set (d := normalize (keyDirection k)) in *. clearbody d r.
    set (s := movementSpeed props * delta) in *. clearbody s.
    assert (E : displacement (position cam)
                  (add (position cam)
                     (multiplyScalar
                        (addScaledVector
                           (addScaledVector
                              (addScaledVector (mkVec 0 0 0) r (x d))
                              worldUp (y d))
                           (mkVec (z r) 0 (- x r)) (- z d)) s))
                = multiplyScalar
                    (mkVec (x r * x d - z r * z d) (y d)
                       (z r * x d + x r * z d)) s).
    { unfold displacement, add, multiplyScalar, addScaledVector, worldUp.
      cbn [x y z]. rewrite Ry. f_equal; ring. }
    rewrite E, length_scaled by exact Hs.
    assert (V : length (mkVec (x r * x d - z r * z d) (y d)
                          (z r * x d + x r * z d)) <= 1).
    { apply length_at_most_one. unfold normSq in *. cbn [x y z].
      destruct Rn as [R1 | R0].
      - rewrite Ry in R1. nra.
      - rewrite R0. cbn [x y z]. nra. }
    nra.
  - unfold moved. rewrite Rltb_false by lra.
    assert (E : displacement (position cam) (position cam) = mkVec 0 0 0).
    { unfold displacement. f_equal; ring. }
    rewrite E, length_origin. exact Hs.
Qed.

Lemma step_is_at_most_speed_times_delta_witness :
  length
    (displacement far_corner
       (moved looking_down_z defaultProps (1 / 60) (mkCamera far_corner 0 0)
          (mkKeys true false true false true false)))
  <= 10 * (1 / 60).
Proof.
  apply (step_is_at_most_speed_times_delta looking_down_z defaultProps
           (1 / 60) (mkCamera far_corner 0 0)
           (mkKeys true false true false true false)).
  cbn. lra.
Defined.

End CameraFacts.
